(** * Survivor options-selling strategy: a shallow embedding

    The development follows [strategy/survivor.py].  The strategy object
    keeps two reference prices and two reset flags; each tick runs the PE
    handler, the CE handler and the reset logic, in that order.

    Modelling conventions
    - Python numbers that hold prices, gaps and thresholds are read as
      exact rationals ([Q]) in the strategy methods below; quantities,
      multipliers and flags are integers ([Z]).  The program computes on
      IEEE doubles: [Float64] gives the arithmetic of the handlers and of
      the reset logic on doubles, and the statements proved on the exact
      reading are those that do not turn on a rounding error of the last
      place; where the two readings part, a fact of [Float64Facts] shows
      it.
    - The strategy mutates [self] and talks to a broker, an order tracker
      and a logger.  All four are threaded explicitly in a [Machine].
    - The broker is an interface ([Broker]) over an abstract world [W];
      every call may change the world, so two calls with the same
      arguments may answer differently.
    - [while True] is modelled with fuel.  A handler reports the statement
      at which it left ([Exit]); [Diverged] means the loop was still
      running when the fuel was spent. *)

From Stdlib Require Import ZArith QArith Qround Lqa Lia Bool List String.
From Stdlib Require Floats.
Import ListNotations.
Open Scope Q_scope.

(** ** Python numerics *)

Module Py.

(** [a < b] on rationals, as a boolean. *)
Definition Qlt_bool (a b : Q) : bool := negb (Qle_bool b a).

(** [round(x, 0)]: nearest whole number, ties go to the even neighbour. *)
Definition round (x : Q) : Z :=
  let f := Qfloor x in
  match Qcompare (x - inject_Z f) (1 # 2) with
  | Lt => f
  | Gt => (f + 1)%Z
  | Eq => if Z.even f then f else (f + 1)%Z
  end.

(** [int(x)]: truncation towards zero. *)
Definition int (x : Q) : Z :=
  if Qle_bool 0 x then Qfloor x else Qceiling x.

(** Truth value of an integer used as a condition. *)
Definition truthy (z : Z) : bool := negb (z =? 0)%Z.

End Py.

(** ** Data model *)

Inductive option_type := PE | CE.

(** The dictionary returned by [find_instrument]; the strategy reads only
    ['tradingsymbol']. *)
Record Instrument := mkInstrument {
  tradingsymbol : string;
  strike : Q
}.

(** The [strat_var_*] attributes copied from the configuration. *)
Record Config := mkConfig {
  symbol_initials : string;
  exchange : string;
  order_type : string;
  product_type : string;
  trans_type : string;
  pe_gap : Q;
  ce_gap : Q;
  pe_symbol_gap : Q;
  ce_symbol_gap : Q;
  pe_reset_gap : Q;
  ce_reset_gap : Q;
  pe_quantity : Z;
  ce_quantity : Z;
  pe_start_point : Q;
  ce_start_point : Q;
  min_price_to_sell : Q;
  sell_multiplier_threshold : Q;
  nifty_lot_size : Q
}.

(** The mutable attributes of [SurvivorStrategy]. *)
Record Strategy := mkStrategy {
  pe_reset_gap_flag : Z;
  ce_reset_gap_flag : Z;
  nifty_pe_last_value : Q;
  nifty_ce_last_value : Q
}.

(** The dictionary handed to [order_manager.add_order]; ['price'] is always
    [None] and is left out. *)
Record OrderDetails := mkOrder {
  order_id : Z;
  symbol : string;
  transaction_type : string;
  quantity : Z;
  timestamp : string
}.

(** What the strategy writes to the logger. *)
Inductive LogEvent :=
| StableMarket (current_val : Q)
| MultiplierBreached (sell_multiplier : Z)
| NoSuitableInstrument (side : option_type) (temp_gap : Q)
| PremiumTooLow (side : option_type) (last_price : Q)
| ExecuteSell (side : option_type) (sym : string) (total_quantity : Z)
| OrderPlacementFailed (sym : string) (qty : Z)
| PlacingOrder (sym : string) (qty : Z)
| Resetting (side : option_type) (old_value new_value : Q).

(** Where a trade handler stopped. *)
Inductive Exit :=
| Stable                                  (* early return: price on the quiet side *)
| NoTrigger                               (* the gap test failed *)
| DivisionByZero                          (* ZeroDivisionError in the multiplier *)
| Breach (sell_multiplier : Z)            (* return after the risk check *)
| NoInstrument (sell_multiplier : Z)      (* return inside the loop *)
| QuoteError (sell_multiplier : Z)        (* subscripting a missing quote raised *)
| Executed (sell_multiplier : Z) (instrument : Instrument)   (* break *)
| Diverged (sell_multiplier : Z).         (* loop still running *)

(** The trigger fired: the handler went past the gap test. *)
Definition fired (e : Exit) : bool :=
  match e with
  | Stable | NoTrigger => false
  | _ => true
  end.

(** The multiplier computed by a fired trigger. *)
Definition multiplier (e : Exit) : option Z :=
  match e with
  | Breach k | NoInstrument k | QuoteError k | Executed k _ | Diverged k => Some k
  | _ => None
  end.

(** The reference was advanced: the handler went past the risk check. *)
Definition advanced (e : Exit) : bool :=
  match e with
  | NoInstrument _ | QuoteError _ | Executed _ _ | Diverged _ => true
  | _ => false
  end.

(** How the strike loop stopped. *)
Inductive SearchResult :=
| Found (instrument : Instrument)
| NotFound
| QuoteFailed
| Unfinished (temp_gap : Q).

Section Survivor.

(** The state of the broker and of the market behind it. *)
Variable W : Type.

(** The broker methods the strategy calls, and the wall clock. *)
Record Broker := mkBroker {
  find_instrument : string -> option_type -> Q -> Q -> W -> option Instrument * W;
  get_quote : string -> string -> W -> option Q * W;
  place_order :
    string -> Z -> string -> string -> string -> string -> string -> string ->
    W -> Z * W;
  now : W -> string
}.

Record Machine := mkMachine {
  self : Strategy;
  world : W;
  order_manager : list OrderDetails;
  logger : list LogEvent
}.

Definition set_self (s : Strategy) (m : Machine) : Machine :=
  mkMachine s (world m) (order_manager m) (logger m).

Definition set_world (w : W) (m : Machine) : Machine :=
  mkMachine (self m) w (order_manager m) (logger m).

Definition log (e : LogEvent) (m : Machine) : Machine :=
  mkMachine (self m) (world m) (order_manager m) (logger m ++ [e]).

Definition add_order (o : OrderDetails) (m : Machine) : Machine :=
  mkMachine (self m) (world m) (order_manager m ++ [o]) (logger m).

Definition set_pe_last (v : Q) (s : Strategy) : Strategy :=
  mkStrategy (pe_reset_gap_flag s) (ce_reset_gap_flag s) v (nifty_ce_last_value s).

Definition set_ce_last (v : Q) (s : Strategy) : Strategy :=
  mkStrategy (pe_reset_gap_flag s) (ce_reset_gap_flag s) (nifty_pe_last_value s) v.

Definition set_pe_flag (f : Z) (s : Strategy) : Strategy :=
  mkStrategy f (ce_reset_gap_flag s) (nifty_pe_last_value s) (nifty_ce_last_value s).

Definition set_ce_flag (f : Z) (s : Strategy) : Strategy :=
  mkStrategy (pe_reset_gap_flag s) f (nifty_pe_last_value s) (nifty_ce_last_value s).

Variable broker : Broker.
Variable cfg : Config.

(** ** The strategy methods *)

Definition _nifty_quote (w : W) : option Q * W :=
  get_quote broker "NSE:NIFTY 50" "NSE" w.

(** [None]: the quote was missing although a start point needed it. *)
Definition _initialize_state (w : W) : option Machine :=
  let (current_quote, w1) := _nifty_quote w in
  let start (point : Q) : option Q :=
    if Qeq_bool point 0 then current_quote else Some point in
  match start (pe_start_point cfg), start (ce_start_point cfg) with
  | Some pe, Some ce => Some (mkMachine (mkStrategy 0 0 pe ce) w1 [] [])
  | _, _ => None
  end.

Definition _log_stable_market (current_val : Q) (m : Machine) : Machine :=
  log (StableMarket current_val) m.

Definition _check_sell_multiplier_breach (sell_multiplier : Z) (m : Machine)
  : bool * Machine :=
  if Py.Qlt_bool (sell_multiplier_threshold cfg) (inject_Z sell_multiplier)
  then (true, log (MultiplierBreached sell_multiplier) m)
  else (false, m).

Definition _place_order (sym : string) (qty : Z) (m : Machine) : Machine :=
  let (oid, w1) :=
    place_order broker sym qty (trans_type cfg) (order_type cfg) "REGULAR"
                (exchange cfg) (product_type cfg) "Survivor" (world m) in
  let m1 := set_world w1 m in
  if (oid =? -1)%Z
  then log (OrderPlacementFailed sym qty) m1
  else
    add_order (mkOrder oid sym (trans_type cfg) qty (now broker w1))
              (log (PlacingOrder sym qty) m1).

(** The body of [while True] in both handlers, up to the premium test. *)
Fixpoint strike_search (fuel : nat) (side : option_type) (current_price temp_gap : Q)
         (m : Machine) : SearchResult * Machine :=
  match fuel with
  | O => (Unfinished temp_gap, m)
  | S fuel' =>
      let (found, w1) :=
        find_instrument broker (symbol_initials cfg) side current_price temp_gap
                        (world m) in
      match found with
      | None => (NotFound, log (NoSuitableInstrument side temp_gap) (set_world w1 m))
      | Some instrument =>
          let (quote, w2) := get_quote broker (tradingsymbol instrument) (exchange cfg) w1 in
          match quote with
          | None => (QuoteFailed, set_world w2 m)
          | Some last_price =>
              if Py.Qlt_bool last_price (min_price_to_sell cfg)
              then strike_search fuel' side current_price
                                 (temp_gap - nifty_lot_size cfg)
                                 (log (PremiumTooLow side last_price) (set_world w2 m))
              else (Found instrument, set_world w2 m)
          end
      end
  end.

(** The rest of a handler once the loop has stopped. *)
Definition finish_trade (side : option_type) (sell_multiplier total_quantity : Z)
           (r : SearchResult * Machine) : Exit * Machine :=
  match r with
  | (Found instrument, m) =>
      let m1 := _place_order (tradingsymbol instrument) total_quantity
                  (log (ExecuteSell side (tradingsymbol instrument) total_quantity) m) in
      let arm := match side with PE => set_pe_flag 1 | CE => set_ce_flag 1 end in
      (Executed sell_multiplier instrument, set_self (arm (self m1)) m1)
  | (NotFound, m) => (NoInstrument sell_multiplier, m)
  | (QuoteFailed, m) => (QuoteError sell_multiplier, m)
  | (Unfinished _, m) => (Diverged sell_multiplier, m)
  end.

Definition _handle_pe_trade (fuel : nat) (current_price : Q) (m : Machine)
  : Exit * Machine :=
  if Qle_bool current_price (nifty_pe_last_value (self m))
  then (Stable, _log_stable_market current_price m)
  else
    let price_diff := Py.round (current_price - nifty_pe_last_value (self m)) in
    if Py.Qlt_bool (pe_gap cfg) (inject_Z price_diff) then
      if Qeq_bool (pe_gap cfg) 0 then (DivisionByZero, m)
      else
        let sell_multiplier := Py.int (inject_Z price_diff / pe_gap cfg) in
        let (breach, m1) := _check_sell_multiplier_breach sell_multiplier m in
        if breach then (Breach sell_multiplier, log (MultiplierBreached sell_multiplier) m1)
        else
          let m2 :=
            set_self (set_pe_last (nifty_pe_last_value (self m1)
                                   + pe_gap cfg * inject_Z sell_multiplier) (self m1)) m1 in
          let total_quantity := (sell_multiplier * pe_quantity cfg)%Z in
          finish_trade PE sell_multiplier total_quantity
                       (strike_search fuel PE current_price (pe_symbol_gap cfg) m2)
    else (NoTrigger, m).

Definition _handle_ce_trade (fuel : nat) (current_price : Q) (m : Machine)
  : Exit * Machine :=
  if Qle_bool (nifty_ce_last_value (self m)) current_price
  then (Stable, _log_stable_market current_price m)
  else
    let price_diff := Py.round (nifty_ce_last_value (self m) - current_price) in
    if Py.Qlt_bool (ce_gap cfg) (inject_Z price_diff) then
      if Qeq_bool (ce_gap cfg) 0 then (DivisionByZero, m)
      else
        let sell_multiplier := Py.int (inject_Z price_diff / ce_gap cfg) in
        let (breach, m1) := _check_sell_multiplier_breach sell_multiplier m in
        if breach then (Breach sell_multiplier, log (MultiplierBreached sell_multiplier) m1)
        else
          let m2 :=
            set_self (set_ce_last (nifty_ce_last_value (self m1)
                                   - ce_gap cfg * inject_Z sell_multiplier) (self m1)) m1 in
          let total_quantity := (sell_multiplier * ce_quantity cfg)%Z in
          finish_trade CE sell_multiplier total_quantity
                       (strike_search fuel CE current_price (ce_symbol_gap cfg) m2)
    else (NoTrigger, m).

Definition _reset_reference_values (current_price : Q) (m : Machine) : Machine :=
  let m1 :=
    if Py.Qlt_bool (pe_reset_gap cfg) (nifty_pe_last_value (self m) - current_price)
       && Py.truthy (pe_reset_gap_flag (self m))
    then
      set_self (set_pe_last (current_price + pe_reset_gap cfg) (self m))
               (log (Resetting PE (nifty_pe_last_value (self m))
                               (current_price + pe_reset_gap cfg)) m)
    else m in
  if Py.Qlt_bool (ce_reset_gap cfg) (current_price - nifty_ce_last_value (self m1))
     && Py.truthy (ce_reset_gap_flag (self m1))
  then
    set_self (set_ce_last (current_price - ce_reset_gap cfg) (self m1))
             (log (Resetting CE (nifty_ce_last_value (self m1))
                             (current_price - ce_reset_gap cfg)) m1)
  else m1.

(** An exit through which the handler raised or never came back. *)
Definition abnormal (e : Exit) : bool :=
  match e with
  | DivisionByZero | QuoteError _ | Diverged _ => true
  | _ => false
  end.

Definition hung (e : Exit) : bool :=
  match e with
  | Diverged _ => true
  | _ => false
  end.

(** One tick.  The second component of the exits is [None] when the PE
    handler did not return, so the CE handler and the reset never ran. *)
Definition on_ticks_update (fuel : nat) (current_price : Q) (m : Machine)
  : (Exit * option Exit) * Machine :=
  let (pe, m1) := _handle_pe_trade fuel current_price m in
  if abnormal pe then ((pe, None), m1)
  else
    let (ce, m2) := _handle_ce_trade fuel current_price m1 in
    if abnormal ce then ((pe, Some ce), m2)
    else ((pe, Some ce), _reset_reference_values current_price m2).

(** The tick loop of [main.py]: an exception in one tick is caught and the
    loop goes on with the next tick; a tick that hangs in the strike loop
    keeps the later ticks waiting for ever. *)
Fixpoint run (fuel : nat) (ticks : list Q) (m : Machine) : Machine :=
  match ticks with
  | [] => m
  | current_price :: rest =>
      match on_ticks_update fuel current_price m with
      | ((pe, ce), m1) =>
          if hung pe || match ce with Some e => hung e | None => false end
          then m1
          else run fuel rest m1
      end
  end.

End Survivor.


Arguments mkBroker {W}.
Arguments find_instrument {W}.
Arguments get_quote {W}.
Arguments place_order {W}.
Arguments now {W}.
Arguments mkMachine {W}.
Arguments self {W}.
Arguments world {W}.
Arguments order_manager {W}.
Arguments logger {W}.
Arguments log {W}.
Arguments set_self {W}.
Arguments set_world {W}.
Arguments strike_search {W}.
Arguments finish_trade {W}.
Arguments _nifty_quote {W}.
Arguments _initialize_state {W}.
Arguments _check_sell_multiplier_breach {W}.
Arguments _place_order {W}.
Arguments _handle_pe_trade {W}.
Arguments _handle_ce_trade {W}.
Arguments _reset_reference_values {W}.
Arguments on_ticks_update {W}.
Arguments run {W}.

(** ** Reading both sides through one name

    The two handlers are mirror images.  The selectors below let one
    statement speak about either side. *)

Definition handle_trade {W} (side : option_type)
  : Broker W -> Config -> nat -> Q -> Machine W -> Exit * Machine W :=
  match side with
  | PE => _handle_pe_trade
  | CE => _handle_ce_trade
  end.

Definition reference (side : option_type) (s : Strategy) : Q :=
  match side with
  | PE => nifty_pe_last_value s
  | CE => nifty_ce_last_value s
  end.

Definition armed (side : option_type) (s : Strategy) : Z :=
  match side with
  | PE => pe_reset_gap_flag s
  | CE => ce_reset_gap_flag s
  end.

Definition set_reference (side : option_type) (v : Q) (s : Strategy) : Strategy :=
  match side with
  | PE => set_pe_last v s
  | CE => set_ce_last v s
  end.

Definition gap (side : option_type) (cfg : Config) : Q :=
  match side with
  | PE => pe_gap cfg
  | CE => ce_gap cfg
  end.

Definition symbol_gap (side : option_type) (cfg : Config) : Q :=
  match side with
  | PE => pe_symbol_gap cfg
  | CE => ce_symbol_gap cfg
  end.

Definition reset_gap (side : option_type) (cfg : Config) : Q :=
  match side with
  | PE => pe_reset_gap cfg
  | CE => ce_reset_gap cfg
  end.

Definition base_quantity (side : option_type) (cfg : Config) : Z :=
  match side with
  | PE => pe_quantity cfg
  | CE => ce_quantity cfg
  end.

(** The price is on the trigger side of the reference: above it for PE,
    below it for CE. *)
Definition beyond (side : option_type) (current_price ref : Q) : Prop :=
  match side with
  | PE => ref < current_price
  | CE => current_price < ref
  end.

(** The price is on the quiet side of the reference, or on it. *)
Definition quiet (side : option_type) (current_price ref : Q) : Prop :=
  match side with
  | PE => current_price <= ref
  | CE => ref <= current_price
  end.

(** The distance travelled towards the trigger. *)
Definition travel (side : option_type) (current_price ref : Q) : Q :=
  match side with
  | PE => current_price - ref
  | CE => ref - current_price
  end.

(** [ref] moved by [d] in the direction of the trigger. *)
Definition towards (side : option_type) (ref d : Q) : Q :=
  match side with
  | PE => ref + d
  | CE => ref - d
  end.

(** The distance travelled back, away from the trigger. *)
Definition retrace (side : option_type) (current_price ref : Q) : Q :=
  match side with
  | PE => ref - current_price
  | CE => current_price - ref
  end.

(** Where the reset logic puts a reference. *)
Definition relocation (side : option_type) (cfg : Config) (current_price : Q) : Q :=
  match side with
  | PE => current_price + pe_reset_gap cfg
  | CE => current_price - ce_reset_gap cfg
  end.

(** The [price_diff] and [sell_multiplier] a handler computes. *)
Definition price_diff_of (side : option_type) (current_price : Q) (s : Strategy) : Z :=
  Py.round (travel side current_price (reference side s)).

Definition sell_multiplier_of (side : option_type) (cfg : Config)
           (current_price : Q) (s : Strategy) : Z :=
  Py.int (inject_Z (price_diff_of side current_price s) / gap side cfg).

(** The machine after the reference update that follows the risk check. *)
Definition advance {W} (cfg : Config) (side : option_type) (current_price : Q)
           (m : Machine W) : Machine W :=
  set_self
    (set_reference side
       (towards side (reference side (self m))
                (gap side cfg * inject_Z (sell_multiplier_of side cfg current_price (self m))))
       (self m))
    m.

(** A flag after an operation: what it was, or raised to 1. *)
Definition kept_or_set (z z' : Z) : Prop := z' = z \/ z' = 1%Z.

(** ** Fixtures: a configuration and deterministic brokers

    The world of a fixture broker is the number of calls it has served. *)

Definition demo_cfg : Config :=
  {| symbol_initials := "NIFTY25807";
     exchange := "NFO";
     order_type := "MARKET";
     product_type := "NRML";
     trans_type := "SELL";
     pe_gap := 25;
     ce_gap := 25;
     pe_symbol_gap := 200;
     ce_symbol_gap := 200;
     pe_reset_gap := 50;
     ce_reset_gap := 50;
     pe_quantity := 75;
     ce_quantity := 75;
     pe_start_point := 0;
     ce_start_point := 0;
     min_price_to_sell := 15;
     sell_multiplier_threshold := 3;
     nifty_lot_size := 50 |}.

Definition fixture_broker (lookup : option_type -> Q -> Q -> option Instrument)
           (premium : string -> option Q) (oid : Z) : Broker nat :=
  {| find_instrument := fun _ side ltp g w => (lookup side ltp g, S w);
     get_quote := fun sym _ w => (premium sym, S w);
     place_order := fun _ _ _ _ _ _ _ _ w => (oid, S w);
     now := fun _ => "2025-08-07T09:15:00"%string |}.

Definition strike_at (side : option_type) (ltp g : Q) : Q :=
  match side with
  | PE => ltp - g
  | CE => ltp + g
  end.

(** Two strikes are listed: the one at distance 200 quotes 10, the one at
    distance 150 quotes 20. *)
Definition ladder_lookup (side : option_type) (ltp g : Q) : option Instrument :=
  if Qeq_bool g 200 then Some (mkInstrument "OPT200" (strike_at side ltp g))
  else if Qeq_bool g 150 then Some (mkInstrument "OPT150" (strike_at side ltp g))
  else None.

Definition ladder_premium (sym : string) : option Q :=
  if String.eqb sym "OPT200" then Some 10
  else if String.eqb sym "OPT150" then Some 20
  else if String.eqb sym "NSE:NIFTY 50" then Some 24500
  else None.

(** Orders are accepted with id 7001. *)
Definition ladder_broker : Broker nat := fixture_broker ladder_lookup ladder_premium 7001.

(** The same market, but every order is refused with the sentinel -1. *)
Definition refusing_broker : Broker nat := fixture_broker ladder_lookup ladder_premium (-1).

(** Every distance has a strike and every strike quotes 1, below any
    sensible minimum premium. *)
Definition cheap_broker : Broker nat :=
  fixture_broker (fun side ltp g => Some (mkInstrument "CHEAP" (strike_at side ltp g)))
                 (fun _ => Some 1) 7001.

(** A strategy object before any broker call. *)
Definition fresh (pe_flag ce_flag : Z) (pe_ref ce_ref : Q) : Machine nat :=
  mkMachine (mkStrategy pe_flag ce_flag pe_ref ce_ref) O [] [].

Definition at_24500 : Machine nat := fresh 0 0 24500 24500.


(** ** Further parts of the program *)

(** The opposite side. *)
Definition other (side : option_type) : option_type :=
  match side with
  | PE => CE
  | CE => PE
  end.

(** [l'] is [l] with entries appended. *)
Definition extends {A : Type} (l l' : list A) : Prop := exists t, l' = l ++ t.

(** The order tracker and the log of [m'] continue those of [m]. *)
Definition grows {W} (m m' : Machine W) : Prop :=
  extends (order_manager m) (order_manager m') /\ extends (logger m) (logger m').

Section SurvivorHelpers.
Context {W : Type} (broker : Broker W) (cfg : Config).

(** The body of [while True] in [_find_price_eligible_symbol]: the index
    quote is fetched afresh in every round, and nothing is logged. *)
Fixpoint eligible_loop (fuel : nat) (side : option_type) (temp_gap : Q) (m : Machine W)
  : SearchResult * Machine W :=
  match fuel with
  | O => (Unfinished temp_gap, m)
  | S fuel' =>
      let (nifty, w0) := _nifty_quote broker (world m) in
      match nifty with
      | None => (QuoteFailed, set_world w0 m)
      | Some ltp =>
          let (found, w1) :=
            find_instrument broker (symbol_initials cfg) side ltp temp_gap w0 in
          match found with
          | None => (NotFound, set_world w1 m)
          | Some instrument =>
              let (quote, w2) :=
                get_quote broker (tradingsymbol instrument) (exchange cfg) w1 in
              match quote with
              | None => (QuoteFailed, set_world w2 m)
              | Some price =>
                  if Py.Qlt_bool price (min_price_to_sell cfg)
                  then eligible_loop fuel' side (temp_gap - nifty_lot_size cfg)
                                     (set_world w2 m)
                  else (Found instrument, set_world w2 m)
              end
          end
      end
  end.

Definition _find_price_eligible_symbol (fuel : nat) (side : option_type) (m : Machine W)
  : SearchResult * Machine W :=
  eligible_loop fuel side (symbol_gap side cfg) m.

End SurvivorHelpers.

(** ** Start-up code of [main.py] *)

Module Main.

(** A configuration value: YAML and argparse give strings and numbers. *)
Inductive value :=
| VStr (s : string)
| VNum (q : Q).

(** Python [==] between two such values. *)
Definition value_eqb (a b : value) : bool :=
  match a, b with
  | VStr s, VStr t => String.eqb s t
  | VNum p, VNum q => Qeq_bool p q
  | _, _ => false
  end.

(** A dict with string keys, in insertion order. *)
Definition dict := list (string * value).

Fixpoint dict_get (d : dict) (key : string) : option value :=
  match d with
  | [] => None
  | (k, v) :: rest => if String.eqb k key then Some v else dict_get rest key
  end.

(** [d[key] = v]: an existing key keeps its place. *)
Fixpoint dict_set (d : dict) (key : string) (v : value) : dict :=
  match d with
  | [] => [(key, v)]
  | (k, old) :: rest =>
      if String.eqb k key then (k, v) :: rest else (k, old) :: dict_set rest key v
  end.

Definition arg_to_config_mapping : list (string * string) :=
  [ ("symbol_initials", "symbol_initials"); ("index_symbol", "index_symbol");
    ("pe_symbol_gap", "pe_symbol_gap"); ("ce_symbol_gap", "ce_symbol_gap");
    ("exchange", "exchange"); ("order_type", "order_type");
    ("product_type", "product_type"); ("pe_gap", "pe_gap"); ("ce_gap", "ce_gap");
    ("pe_reset_gap", "pe_reset_gap"); ("ce_reset_gap", "ce_reset_gap");
    ("pe_quantity", "pe_quantity"); ("ce_quantity", "ce_quantity");
    ("pe_start_point", "pe_start_point"); ("ce_start_point", "ce_start_point");
    ("trans_type", "trans_type"); ("min_price_to_sell", "min_price_to_sell");
    ("sell_multiplier_threshold", "sell_multiplier_threshold") ]%string.

(** The override loop: [args] holds the parsed command line, an option
    that was not given being absent ([None] in the namespace).  The result
    is the merged configuration and the overrides in the order applied. *)
Definition apply_overrides_from (mapping : list (string * string)) (args : dict)
           (start : dict * list (string * value)) : dict * list (string * value) :=
  fold_left
    (fun (acc : dict * list (string * value)) (entry : string * string) =>
       match dict_get args (fst entry) with
       | Some arg_value =>
           (dict_set (fst acc) (snd entry) arg_value, snd acc ++ [(snd entry, arg_value)])
       | None => acc
       end)
    mapping start.

Definition apply_overrides (args config : dict) : dict * list (string * value) :=
  apply_overrides_from arg_to_config_mapping args (config, []).

Definition default_values : dict :=
  [ ("symbol_initials", VStr "NIFTY25807"); ("pe_gap", VNum 20); ("ce_gap", VNum 20);
    ("pe_quantity", VNum 75); ("ce_quantity", VNum 75);
    ("pe_symbol_gap", VNum 200); ("ce_symbol_gap", VNum 200);
    ("min_price_to_sell", VNum 15); ("pe_reset_gap", VNum 30); ("ce_reset_gap", VNum 30);
    ("pe_start_point", VNum 0); ("ce_start_point", VNum 0);
    ("sell_multiplier_threshold", VNum 5) ]%string.

(** [config.get(key) == default_value] *)
Definition at_default (config : dict) (entry : string * value) : bool :=
  match dict_get config (fst entry) with
  | Some v => value_eqb v (snd entry)
  | None => false
  end.

Definition unchanged_values (config : dict) : list string :=
  map fst (filter (at_default config) default_values).

Definition changed_values (config : dict) : list string :=
  map fst (filter (fun entry => negb (at_default config entry)) default_values).

(** What [validate_configuration] gives back: [True], [False], or the
    [EOFError] of [input] when the console has nothing more to read. *)
Inductive Verdict := Proceed | Refuse | EndOfInput.

Definition is_in (response : string) (choices : list string) : bool :=
  existsb (String.eqb response) choices.

(** The confirmation loop.  Each element of [responses] is one value of
    [input(...).lower().strip()]. *)
Fixpoint confirm (responses : list string) : Verdict * list string :=
  match responses with
  | [] => (EndOfInput, [])
  | response :: rest =>
      if is_in response ["yes"; "y"]%string then (Proceed, rest)
      else if is_in response ["no"; "n"]%string then (Refuse, rest)
      else confirm rest
  end.

(** A response that is neither a yes nor a no. *)
Definition unrecognised (response : string) : Prop :=
  is_in response ["yes"; "y"]%string = false /\ is_in response ["no"; "n"]%string = false.

Definition validate_configuration (config : dict) (responses : list string)
  : Verdict * list string :=
  if (List.length (changed_values config) =? 0)%nat then (Refuse, responses)
  else if (0 <? List.length (unchanged_values config))%nat then confirm responses
  else (Proceed, responses).

End Main.

(** Fixtures: the shipped defaults, and a configuration with a new series. *)
Definition shipped_config : Main.dict := Main.default_values.

Definition edited_config : Main.dict :=
  Main.dict_set shipped_config "symbol_initials" (Main.VStr "NIFTY25JAN30").

(** ** The arithmetic of the program on IEEE doubles

    The same statements as in the handlers and in the reset logic, with
    every operation the double-precision one.  Values are finite. *)

Module Float64.
Import Floats.
Local Open Scope float_scope.

(** The rational a finite double stands for. *)
Definition to_Q (x : float) : Q :=
  match Prim2SF x with
  | S754_finite s m e =>
      ((if s then - inject_Z (Zpos m) else inject_Z (Zpos m)) * Qpower 2 e)%Q
  | _ => 0%Q
  end.

(** The double of a whole number below 2^53 in size. *)
Definition of_Z (n : Z) : float :=
  if (0 <=? n)%Z then of_uint63 (Uint63.of_Z n)
  else - of_uint63 (Uint63.of_Z (- n)).

(** [round(x, 0)]: a double of size 2^52 or more is whole already. *)
Definition round0 (x : float) : float :=
  if abs x <? 0x1p52 then of_Z (Py.round (to_Q x)) else x.

(** [int(x)] *)
Definition int (x : float) : Z := Py.int (to_Q x).

(** How far a handler gets before its strike loop, and the reference it
    stores when it gets there. *)
Inductive Step :=
| Quiet
| Below
| ZeroDivision
| Rejected (sell_multiplier : Z)
| Advanced (sell_multiplier : Z) (last_value : float).

(** [_handle_pe_trade] down to the reference update. *)
Definition pe_prefix (sell_multiplier_threshold pe_gap nifty_pe_last_value
                      current_price : float) : Step :=
  if current_price <=? nifty_pe_last_value then Quiet
  else
    let price_diff := round0 (current_price - nifty_pe_last_value) in
    if pe_gap <? price_diff then
      if pe_gap =? 0 then ZeroDivision
      else
        let sell_multiplier := int (price_diff / pe_gap) in
        if sell_multiplier_threshold <? of_Z sell_multiplier
        then Rejected sell_multiplier
        else Advanced sell_multiplier
                      (nifty_pe_last_value + pe_gap * of_Z sell_multiplier)
    else Below.

(** [_handle_ce_trade] down to the reference update. *)
Definition ce_prefix (sell_multiplier_threshold ce_gap nifty_ce_last_value
                      current_price : float) : Step :=
  if nifty_ce_last_value <=? current_price then Quiet
  else
    let price_diff := round0 (nifty_ce_last_value - current_price) in
    if ce_gap <? price_diff then
      if ce_gap =? 0 then ZeroDivision
      else
        let sell_multiplier := int (price_diff / ce_gap) in
        if sell_multiplier_threshold <? of_Z sell_multiplier
        then Rejected sell_multiplier
        else Advanced sell_multiplier
                      (nifty_ce_last_value - ce_gap * of_Z sell_multiplier)
    else Below.

(** The PE half of [_reset_reference_values]: the reference it leaves. *)
Definition reset_pe (pe_reset_gap : float) (pe_reset_gap_flag : Z)
           (nifty_pe_last_value current_price : float) : float :=
  if (pe_reset_gap <? nifty_pe_last_value - current_price) && Py.truthy pe_reset_gap_flag
  then current_price + pe_reset_gap
  else nifty_pe_last_value.

(** The CE half. *)
Definition reset_ce (ce_reset_gap : float) (ce_reset_gap_flag : Z)
           (nifty_ce_last_value current_price : float) : float :=
  if (ce_reset_gap <? current_price - nifty_ce_last_value) && Py.truthy ce_reset_gap_flag
  then current_price - ce_reset_gap
  else nifty_ce_last_value.

End Float64.

(** A configuration whose PE gap was given as -25. *)
Definition negative_gap_cfg : Config :=
  {| symbol_initials := "NIFTY25807";
     exchange := "NFO";
     order_type := "MARKET";
     product_type := "NRML";
     trans_type := "SELL";
     pe_gap := -25;
     ce_gap := 25;
     pe_symbol_gap := 200;
     ce_symbol_gap := 200;
     pe_reset_gap := 50;
     ce_reset_gap := 50;
     pe_quantity := 75;
     ce_quantity := 75;
     pe_start_point := 0;
     ce_start_point := 0;
     min_price_to_sell := 15;
     sell_multiplier_threshold := 3;
     nifty_lot_size := 50 |}.

(** * Facts *)

(** ** Python numerics *)

Module PyFacts.

Lemma Qlt_bool_iff a b : Py.Qlt_bool a b = true <-> a < b.
Proof.
  unfold Py.Qlt_bool. rewrite negb_true_iff, <- not_true_iff_false, Qle_bool_iff.
  split; [apply Qnot_le_lt | apply Qlt_not_le].
Qed.

Lemma Qlt_bool_false a b : Py.Qlt_bool a b = false <-> b <= a.
Proof.
  unfold Py.Qlt_bool. rewrite negb_false_iff. apply Qle_bool_iff.
Qed.

Lemma Qle_bool_false a b : Qle_bool a b = false <-> b < a.
Proof.
  rewrite <- not_true_iff_false, Qle_bool_iff.
  split; [apply Qnot_le_lt | apply Qlt_not_le].
Qed.

Lemma Qeq_bool_false a b : Qeq_bool a b = false <-> ~ a == b.
Proof.
  rewrite <- not_true_iff_false, Qeq_bool_iff. tauto.
Qed.

Lemma floor_succ x : inject_Z (Qfloor x + 1) == inject_Z (Qfloor x) + 1.
Proof. rewrite inject_Z_plus. reflexivity. Qed.

(** Rounding moves a number by at most one half. *)
Lemma round_upper x : inject_Z (Py.round x) <= x + (1 # 2).
Proof.
  unfold Py.round.
  pose proof (Qfloor_le x) as Hf. pose proof (Qlt_floor x) as Hc.
  rewrite floor_succ in Hc.
  destruct (Qcompare_spec (x - inject_Z (Qfloor x)) (1 # 2)) as [E | L | G].
  - destruct (Z.even (Qfloor x)); rewrite ?floor_succ; lra.
  - lra.
  - rewrite floor_succ. lra.
Qed.

Lemma round_lower x : x - (1 # 2) <= inject_Z (Py.round x).
Proof.
  unfold Py.round.
  pose proof (Qfloor_le x) as Hf. pose proof (Qlt_floor x) as Hc.
  rewrite floor_succ in Hc.
  destruct (Qcompare_spec (x - inject_Z (Qfloor x)) (1 # 2)) as [E | L | G].
  - destruct (Z.even (Qfloor x)); rewrite ?floor_succ; lra.
  - lra.
  - rewrite floor_succ. lra.
Qed.



Lemma int_nonneg x : 0 <= x -> Py.int x = Qfloor x.
Proof. intro H. unfold Py.int. apply Qle_bool_iff in H. now rewrite H. Qed.


(** Past a positive gap the truncation is a floor and is at least one. *)
Lemma int_past_gap p g :
  0 < g -> g < p -> Py.int (p / g) = Qfloor (p / g) /\ (1 <= Py.int (p / g))%Z.
Proof.
  intros Hg Hp.
  assert (H1 : 1 <= p / g) by (apply Qle_shift_div_l; lra).
  rewrite int_nonneg by lra. split; [reflexivity |].
  change 1%Z with (Qfloor 1). apply Qfloor_resp_le, H1.
Qed.

Lemma truthy_iff z : Py.truthy z = true <-> z <> 0%Z.
Proof. unfold Py.truthy. rewrite negb_true_iff. apply Z.eqb_neq. Qed.

End PyFacts.

(** ** The strategy *)

Section SurvivorFacts.

Context {W : Type} (broker : Broker W) (cfg : Config).

(** *** What the loop and the order placement leave alone *)

Lemma place_order_self sym qty (m : Machine W) :
  self (_place_order broker cfg sym qty m) = self m.
Proof.
  unfold _place_order. destruct (place_order _ _ _ _ _ _ _ _ _ _) as [oid w1].
  destruct (oid =? -1)%Z; reflexivity.
Qed.

Lemma strike_search_self fuel side cp g (m : Machine W) :
  self (snd (strike_search broker cfg fuel side cp g m)) = self m.
Proof.
  revert g m. induction fuel as [| fuel IH]; intros g m; simpl; [reflexivity |].
  destruct (find_instrument _ _ _ _ _ _) as [[i |] w1]; [| reflexivity].
  destruct (get_quote _ _ _ _) as [[q |] w2]; [| reflexivity].
  destruct (Py.Qlt_bool q (min_price_to_sell cfg)); [| reflexivity].
  rewrite IH. reflexivity.
Qed.

Lemma strike_search_orders fuel side cp g (m : Machine W) :
  order_manager (snd (strike_search broker cfg fuel side cp g m)) = order_manager m.
Proof.
  revert g m. induction fuel as [| fuel IH]; intros g m; simpl; [reflexivity |].
  destruct (find_instrument _ _ _ _ _ _) as [[i |] w1]; [| reflexivity].
  destruct (get_quote _ _ _ _) as [[q |] w2]; [| reflexivity].
  destruct (Py.Qlt_bool q (min_price_to_sell cfg)); [| reflexivity].
  rewrite IH. reflexivity.
Qed.

(** *** The five ways through a handler *)

Lemma handle_trade_cases side fuel cp (m : Machine W) :
  let ref := reference side (self m) in
  let pd := inject_Z (price_diff_of side cp (self m)) in
  let k := sell_multiplier_of side cfg cp (self m) in
  (~ beyond side cp ref /\
   handle_trade side broker cfg fuel cp m = (Stable, log (StableMarket cp) m))
  \/ (beyond side cp ref /\ pd <= gap side cfg /\
      handle_trade side broker cfg fuel cp m = (NoTrigger, m))
  \/ (beyond side cp ref /\ gap side cfg < pd /\ gap side cfg == 0 /\
      handle_trade side broker cfg fuel cp m = (DivisionByZero, m))
  \/ (beyond side cp ref /\ gap side cfg < pd /\ ~ gap side cfg == 0 /\
      sell_multiplier_threshold cfg < inject_Z k /\
      handle_trade side broker cfg fuel cp m
      = (Breach k, log (MultiplierBreached k) (log (MultiplierBreached k) m)))
  \/ (beyond side cp ref /\ gap side cfg < pd /\ ~ gap side cfg == 0 /\
      inject_Z k <= sell_multiplier_threshold cfg /\
      handle_trade side broker cfg fuel cp m
      = finish_trade broker cfg side k (k * base_quantity side cfg)%Z
          (strike_search broker cfg fuel side cp (symbol_gap side cfg) (advance cfg side cp m))).
Proof.
  destruct side; cbn -[strike_search finish_trade Qle_bool Qeq_bool Py.Qlt_bool Py.round Py.int];
    unfold _handle_pe_trade, _handle_ce_trade, _check_sell_multiplier_breach,
      _log_stable_market, sell_multiplier_of, price_diff_of, advance;
    cbn -[strike_search finish_trade Qle_bool Qeq_bool Py.Qlt_bool Py.round Py.int].
  - destruct (Qle_bool cp (nifty_pe_last_value (self m))) eqn:E1.
    { left. apply Qle_bool_iff in E1. split; [lra | reflexivity]. }
    apply PyFacts.Qle_bool_false in E1. right.
    destruct (Py.Qlt_bool (pe_gap cfg) _) eqn:E2.
    2:{ left. apply PyFacts.Qlt_bool_false in E2. auto. }
    apply PyFacts.Qlt_bool_iff in E2. right.
    destruct (Qeq_bool (pe_gap cfg) 0) eqn:E3.
    { left. apply Qeq_bool_iff in E3. auto. }
    apply PyFacts.Qeq_bool_false in E3. right.
    destruct (Py.Qlt_bool (sell_multiplier_threshold cfg) _) eqn:E4.
    { left. apply PyFacts.Qlt_bool_iff in E4. auto. }
    apply PyFacts.Qlt_bool_false in E4. right. auto.
  - destruct (Qle_bool (nifty_ce_last_value (self m)) cp) eqn:E1.
    { left. apply Qle_bool_iff in E1. split; [lra | reflexivity]. }
    apply PyFacts.Qle_bool_false in E1. right.
    destruct (Py.Qlt_bool (ce_gap cfg) _) eqn:E2.
    2:{ left. apply PyFacts.Qlt_bool_false in E2. auto. }
    apply PyFacts.Qlt_bool_iff in E2. right.
    destruct (Qeq_bool (ce_gap cfg) 0) eqn:E3.
    { left. apply Qeq_bool_iff in E3. auto. }
    apply PyFacts.Qeq_bool_false in E3. right.
    destruct (Py.Qlt_bool (sell_multiplier_threshold cfg) _) eqn:E4.
    { left. apply PyFacts.Qlt_bool_iff in E4. auto. }
    apply PyFacts.Qlt_bool_false in E4. right. auto.
Qed.

Lemma place_order_refused sym qty (m : Machine W) :
  fst (place_order broker sym qty (trans_type cfg) (order_type cfg) "REGULAR"
                   (exchange cfg) (product_type cfg) "Survivor" (world m)) = (-1)%Z ->
  self (_place_order broker cfg sym qty m) = self m
  /\ order_manager (_place_order broker cfg sym qty m) = order_manager m
  /\ In (OrderPlacementFailed sym qty) (logger (_place_order broker cfg sym qty m)).
Proof.
  unfold _place_order. destruct (place_order _ _ _ _ _ _ _ _ _ _) as [oid w1].
  cbn [fst]. intros ->. cbn. repeat split. apply in_or_app. right. left. reflexivity.
Qed.

Lemma finish_trade_exit side k qty (r : SearchResult * Machine W) :
  advanced (fst (finish_trade broker cfg side k qty r)) = true
  /\ multiplier (fst (finish_trade broker cfg side k qty r)) = Some k.
Proof. destruct r as [[i | | | g] m]; split; reflexivity. Qed.

Lemma finish_trade_reference side side' k qty (r : SearchResult * Machine W) :
  reference side' (self (snd (finish_trade broker cfg side k qty r)))
  = reference side' (self (snd r)).
Proof.
  destruct r as [[i | | | g] m]; try reflexivity.
  cbn -[_place_order]. rewrite place_order_self.
  destruct side, side'; reflexivity.
Qed.

Lemma advance_reference side cp (m : Machine W) :
  reference side (self (advance cfg side cp m))
  = towards side (reference side (self m))
            (gap side cfg * inject_Z (sell_multiplier_of side cfg cp (self m))).
Proof. destruct side; reflexivity. Qed.

Lemma advance_flags side side' cp (m : Machine W) :
  armed side' (self (advance cfg side cp m)) = armed side' (self m).
Proof. destruct side, side'; reflexivity. Qed.


Lemma quiet_not_beyond side cp ref : quiet side cp ref <-> ~ beyond side cp ref.
Proof. destruct side; simpl; split; intro; lra. Qed.


Ltac by_cases side fuel cp m :=
  destruct (handle_trade_cases side fuel cp m)
    as [[Hq Hr]
       | [[Hb [Hg Hr]]
         | [[Hb [Hg [Hz Hr]]]
           | [[Hb [Hg [Hz [Ht Hr]]]]
             | [Hb [Hg [Hz [Ht Hr]]]]]]]];
  cbv zeta in *.

Ltac trade_exit side fuel cp m :=
  destruct (finish_trade_exit side (sell_multiplier_of side cfg cp (self m))
              (sell_multiplier_of side cfg cp (self m) * base_quantity side cfg)%Z
              (strike_search broker cfg fuel side cp (symbol_gap side cfg)
                 (advance cfg side cp m))) as [Ha Hm].

(** *** Triggers *)

(** A handler fires exactly when the price is beyond its reference and the
    rounded distance is strictly above the gap, whatever the gap. *)
Lemma fired_iff side fuel cp (m : Machine W) :
  fired (fst (handle_trade side broker cfg fuel cp m)) = true
  <-> beyond side cp (reference side (self m))
      /\ gap side cfg < inject_Z (price_diff_of side cp (self m)).
Proof.
  by_cases side fuel cp m; rewrite Hr; cbn [fst fired].
  - split; [discriminate | tauto].
  - split; [discriminate | intros [_ H]; lra].
  - tauto.
  - tauto.
  - trade_exit side fuel cp m.
    assert (Hf : forall x, advanced x = true -> fired x = true)
      by (intros x; destruct x; simpl; congruence).
    rewrite (Hf _ Ha). tauto.
Qed.

(** Past a positive whole-number gap [g] the multiplier is the integer
    quotient of the rounded distance by [g]. *)
Lemma multiplier_whole_gap side cp (s : Strategy) (g : Z) :
  gap side cfg == inject_Z g ->
  (0 < g)%Z ->
  gap side cfg < inject_Z (price_diff_of side cp s) ->
  sell_multiplier_of side cfg cp s = (price_diff_of side cp s / g)%Z
  /\ (1 <= price_diff_of side cp s / g)%Z.
Proof.
  intros Eg Pg Hg.
  assert (P : 0 < gap side cfg)
    by (rewrite Eg; change 0 with (inject_Z 0); rewrite <- Zlt_Qlt; exact Pg).
  destruct (PyFacts.int_past_gap _ _ P Hg) as [Ei Eo].
  fold (sell_multiplier_of side cfg cp s) in Ei, Eo.
  assert (Ef : Qfloor (inject_Z (price_diff_of side cp s) / gap side cfg)
               = (price_diff_of side cp s / g)%Z).
  { rewrite Zdiv_Qdiv. apply Qfloor_comp. rewrite Eg. reflexivity. }
  rewrite Ei in *. rewrite Ef in *. split; [reflexivity | exact Eo].
Qed.

(** C4 (as the code has it).  A handler fires exactly when the price is
    beyond its reference and the rounded distance is strictly above the
    gap; a trigger fired on a positive whole-number gap [g] computes the
    multiplier [floor (price_diff / g)], which is at least 1; on the quiet
    side of the reference nothing fires.  PE and CE alike. *)
Theorem trigger_rule_whole_gap side fuel cp (m : Machine W) :
  let ref := reference side (self m) in
  let pd := price_diff_of side cp (self m) in
  let e := fst (handle_trade side broker cfg fuel cp m) in
  (fired e = true <-> beyond side cp ref /\ gap side cfg < inject_Z pd)
  /\ (forall g : Z,
        gap side cfg == inject_Z g -> (0 < g)%Z -> fired e = true ->
        multiplier e = Some (pd / g)%Z /\ (1 <= pd / g)%Z)
  /\ (quiet side cp ref -> fired e = false).
Proof.
  intros ref pd e. subst ref pd e.
  split; [apply fired_iff |]. split.
  - intros g Eg Pg F.
    assert (P : 0 < gap side cfg)
      by (rewrite Eg; change 0 with (inject_Z 0); rewrite <- Zlt_Qlt; exact Pg).
    revert F.
    by_cases side fuel cp m; rewrite Hr; cbn [fst fired multiplier];
      try discriminate; try (intros _; exfalso; lra).
    + intros _. destruct (multiplier_whole_gap side cp (self m) g Eg Pg Hg) as [-> Ho].
      split; [reflexivity | exact Ho].
    + intros _. trade_exit side fuel cp m. rewrite Hm.
      destruct (multiplier_whole_gap side cp (self m) g Eg Pg Hg) as [-> Ho].
      split; [reflexivity | exact Ho].
  - intro Hq. apply quiet_not_beyond in Hq.
    apply not_true_is_false. intro F. apply fired_iff in F. tauto.
Qed.

(** *** The risk check *)

(** C5.  [_check_sell_multiplier_breach] answers [True] exactly when the
    multiplier is strictly above the threshold (a multiplier equal to the
    threshold passes) and leaves the strategy attributes alone; a handler
    that computed multiplier [k] leaves through the rejection exactly when
    [k] is above the threshold, and then the strategy attributes, the
    reset flags among them, are what they were. *)
Theorem risk_gate_rule side fuel cp (m : Machine W) (k : Z) :
  let check := _check_sell_multiplier_breach cfg k m in
  let r := handle_trade side broker cfg fuel cp m in
  (fst check = true <-> sell_multiplier_threshold cfg < inject_Z k)
  /\ (inject_Z k == sell_multiplier_threshold cfg -> fst check = false)
  /\ self (snd check) = self m
  /\ (multiplier (fst r) = Some k ->
      (fst r = Breach k <-> sell_multiplier_threshold cfg < inject_Z k))
  /\ (fst r = Breach k -> self (snd r) = self m).
Proof.
  intros check r. subst check r. unfold _check_sell_multiplier_breach.
  split; [| split; [| split; [| split]]].
  - destruct (Py.Qlt_bool _ _) eqn:E; cbn [fst].
    + apply PyFacts.Qlt_bool_iff in E. tauto.
    + apply PyFacts.Qlt_bool_false in E. split; [discriminate | intro; lra].
  - intro Heq. destruct (Py.Qlt_bool _ _) eqn:E; cbn [fst]; [| reflexivity].
    apply PyFacts.Qlt_bool_iff in E. lra.
  - destruct (Py.Qlt_bool _ _); reflexivity.
  - by_cases side fuel cp m; rewrite Hr; cbn [fst multiplier]; try discriminate.
    + intro Hk. injection Hk as <-. tauto.
    + trade_exit side fuel cp m.
      rewrite Hm. intro Hk. injection Hk as <-. split.
      * intro Hx. rewrite Hx in Ha. discriminate.
      * intro. lra.
  - by_cases side fuel cp m; rewrite Hr; cbn [fst snd]; try discriminate.
    + reflexivity.
    + trade_exit side fuel cp m.
      intro Hx. rewrite Hx in Ha. discriminate.
Qed.

(** C1 (as the code has it).  When a trigger fires and the risk check
    rejects the multiplier, the handler returns at once: the exit is the
    rejection, no broker call is made, no order is recorded, and every
    strategy attribute keeps its value, the reference price included.
    The reference update sits after the [return] and is not reached. *)
Theorem rejected_trigger_changes_nothing side fuel cp (m : Machine W) :
  beyond side cp (reference side (self m)) ->
  gap side cfg < inject_Z (price_diff_of side cp (self m)) ->
  ~ gap side cfg == 0 ->
  sell_multiplier_threshold cfg < inject_Z (sell_multiplier_of side cfg cp (self m)) ->
  let r := handle_trade side broker cfg fuel cp m in
  fst r = Breach (sell_multiplier_of side cfg cp (self m))
  /\ self (snd r) = self m
  /\ order_manager (snd r) = order_manager m
  /\ world (snd r) = world m.
Proof.
  intros B G Z T r. subst r.
  by_cases side fuel cp m; try (exfalso; lra); try contradiction.
  rewrite Hr. repeat split.
Qed.

(** *** The reference update *)

(** C3 (as the code has it).  When a trigger fires with a non-zero gap and
    the multiplier passes the risk check, the strike loop is entered from
    a machine whose reference has already moved by [gap * multiplier]
    (up for PE, down for CE), and the reference still has exactly that
    value when the handler is left, for every broker and every amount of
    fuel: no instrument, a failing quote, a premium that never suffices,
    or an executed trade. *)
Theorem reference_advance_is_kept side fuel cp (m : Machine W) :
  beyond side cp (reference side (self m)) ->
  gap side cfg < inject_Z (price_diff_of side cp (self m)) ->
  ~ gap side cfg == 0 ->
  inject_Z (sell_multiplier_of side cfg cp (self m)) <= sell_multiplier_threshold cfg ->
  let k := sell_multiplier_of side cfg cp (self m) in
  let moved := towards side (reference side (self m)) (gap side cfg * inject_Z k) in
  let r := handle_trade side broker cfg fuel cp m in
  r = finish_trade broker cfg side k (k * base_quantity side cfg)%Z
        (strike_search broker cfg fuel side cp (symbol_gap side cfg) (advance cfg side cp m))
  /\ reference side (self (advance cfg side cp m)) = moved
  /\ advanced (fst r) = true
  /\ reference side (self (snd r)) = moved.
Proof.
  intros B G Z T k moved r. subst r.
  by_cases side fuel cp m; try (exfalso; lra); try contradiction.
  rewrite Hr. split; [reflexivity |]. split; [apply advance_reference |].
  split; [apply finish_trade_exit |].
  rewrite finish_trade_reference, strike_search_self. apply advance_reference.
Qed.


(** *** The reset logic *)

(** C8.  After [_reset_reference_values] a side's reference is
    [current_price + pe_reset_gap] (PE) or [current_price - ce_reset_gap]
    (CE) when the retracement is strictly above the reset gap and the
    side's flag is set, and is unchanged otherwise; in particular a side
    whose flag is 0 keeps its reference, and no flag is ever touched. *)
Theorem reset_rule side cp (m : Machine W) :
  let m' := _reset_reference_values cfg cp m in
  let due := reset_gap side cfg < retrace side cp (reference side (self m))
             /\ armed side (self m) <> 0%Z in
  (due -> reference side (self m') = relocation side cfg cp)
  /\ (~ due -> reference side (self m') = reference side (self m))
  /\ (armed side (self m) = 0%Z -> reference side (self m') = reference side (self m))
  /\ armed side (self m') = armed side (self m).
Proof.
  intros m' due. subst m' due. unfold _reset_reference_values.
  destruct side; cbn [reset_gap retrace reference armed relocation].
  - destruct (Py.Qlt_bool (pe_reset_gap cfg) _) eqn:E1;
      destruct (Py.truthy (pe_reset_gap_flag (self m))) eqn:E2;
      cbn [andb];
      destruct (Py.Qlt_bool (ce_reset_gap cfg) _ && Py.truthy _);
      cbn [self set_self set_pe_last set_ce_last log nifty_pe_last_value pe_reset_gap_flag];
      try apply PyFacts.Qlt_bool_iff in E1; try apply PyFacts.Qlt_bool_false in E1;
      try apply PyFacts.truthy_iff in E2;
      try (apply not_true_iff_false in E2; rewrite PyFacts.truthy_iff in E2);
      repeat split; intros; try reflexivity; try tauto; try (exfalso; lra); try lia.
  - destruct (Py.Qlt_bool (pe_reset_gap cfg) _ && Py.truthy _);
      cbn [self set_self set_pe_last set_ce_last log nifty_ce_last_value ce_reset_gap_flag];
      destruct (Py.Qlt_bool (ce_reset_gap cfg) _) eqn:E1;
      destruct (Py.truthy (ce_reset_gap_flag (self m))) eqn:E2;
      cbn [andb];
      cbn [self set_self set_pe_last set_ce_last log nifty_ce_last_value ce_reset_gap_flag];
      try apply PyFacts.Qlt_bool_iff in E1; try apply PyFacts.Qlt_bool_false in E1;
      try apply PyFacts.truthy_iff in E2;
      try (apply not_true_iff_false in E2; rewrite PyFacts.truthy_iff in E2);
      repeat split; intros; try reflexivity; try tauto; try (exfalso; lra); try lia.
Qed.

(** *** Flags only ever go up *)

Lemma kept_or_set_truthy z z' : kept_or_set z z' -> z <> 0%Z -> z' <> 0%Z.
Proof. intros [-> | ->] H; [exact H | discriminate]. Qed.

Lemma finish_trade_flags side side' k qty (r : SearchResult * Machine W) :
  kept_or_set (armed side' (self (snd r)))
              (armed side' (self (snd (finish_trade broker cfg side k qty r)))).
Proof.
  destruct r as [[i | | | g] m]; try (left; reflexivity).
  cbn -[_place_order]. rewrite place_order_self.
  destruct side, side'; cbn; (left; reflexivity) || (right; reflexivity).
Qed.

(** Once the loop has selected an instrument the side's flag is set,
    whatever the broker answers to the order. *)
Lemma finish_trade_arms side k qty i (m : Machine W) :
  armed side (self (snd (finish_trade broker cfg side k qty (Found i, m)))) = 1%Z.
Proof. destruct side; reflexivity. Qed.

(** A refused order is logged and not recorded, and the side is armed all
    the same. *)
Lemma refused_order_arms_any_side side k qty i (m : Machine W) :
  fst (place_order broker (tradingsymbol i) qty (trans_type cfg) (order_type cfg)
                   "REGULAR" (exchange cfg) (product_type cfg) "Survivor" (world m))
  = (-1)%Z ->
  let r := finish_trade broker cfg side k qty (Found i, m) in
  order_manager (snd r) = order_manager m
  /\ In (OrderPlacementFailed (tradingsymbol i) qty) (logger (snd r))
  /\ armed side (self (snd r)) = 1%Z.
Proof.
  intros Hrefused r. subst r.
  destruct (place_order_refused (tradingsymbol i) qty
              (log (ExecuteSell side (tradingsymbol i) qty) m) Hrefused) as [_ [Ho Hl]].
  split; [exact Ho |]. split; [exact Hl |]. apply finish_trade_arms.
Qed.

(** A strategy starts with both flags at 0. *)
Lemma initial_flags_clear (w : W) (m : Machine W) :
  _initialize_state broker cfg w = Some m ->
  pe_reset_gap_flag (self m) = 0%Z /\ ce_reset_gap_flag (self m) = 0%Z.
Proof.
  unfold _initialize_state. destruct (_nifty_quote broker w) as [quote w1].
  destruct (if Qeq_bool (pe_start_point cfg) 0 then quote else Some (pe_start_point cfg));
    [| discriminate].
  destruct (if Qeq_bool (ce_start_point cfg) 0 then quote else Some (ce_start_point cfg));
    [| discriminate].
  intro H. injection H as <-. split; reflexivity.
Qed.

Lemma handle_trade_flags side side' fuel cp (m : Machine W) :
  kept_or_set (armed side' (self m))
              (armed side' (self (snd (handle_trade side broker cfg fuel cp m)))).
Proof.
  by_cases side fuel cp m; rewrite Hr; try (left; reflexivity).
  pose proof (finish_trade_flags side side' (sell_multiplier_of side cfg cp (self m))
                (sell_multiplier_of side cfg cp (self m) * base_quantity side cfg)%Z
                (strike_search broker cfg fuel side cp (symbol_gap side cfg)
                   (advance cfg side cp m))) as H.
  rewrite strike_search_self, advance_flags in H. exact H.
Qed.

Lemma reset_flags side cp (m : Machine W) :
  armed side (self (_reset_reference_values cfg cp m)) = armed side (self m).
Proof.
  unfold _reset_reference_values.
  destruct (Py.Qlt_bool (pe_reset_gap cfg) _ && Py.truthy _);
    destruct (Py.Qlt_bool (ce_reset_gap cfg) _ && Py.truthy _);
    destruct side; reflexivity.
Qed.

Lemma on_ticks_update_flags side fuel cp (m : Machine W) :
  armed side (self m) <> 0%Z ->
  armed side (self (snd (on_ticks_update broker cfg fuel cp m))) <> 0%Z.
Proof.
  intro H. unfold on_ticks_update.
  pose proof (handle_trade_flags PE side fuel cp m) as H1. cbn [handle_trade] in H1.
  destruct (_handle_pe_trade broker cfg fuel cp m) as [pe m1]. cbn [snd] in H1.
  apply kept_or_set_truthy in H1; [| exact H].
  destruct (abnormal pe); [exact H1 |].
  pose proof (handle_trade_flags CE side fuel cp m1) as H2. cbn [handle_trade] in H2.
  destruct (_handle_ce_trade broker cfg fuel cp m1) as [ce m2]. cbn [snd] in H2.
  apply kept_or_set_truthy in H2; [| exact H1].
  destruct (abnormal ce); cbn [snd]; [exact H2 |].
  rewrite reset_flags. exact H2.
Qed.

(** C9.  Over any list of ticks fed to the tick loop, with any broker and
    any fuel, a reset flag that is set (non-zero) at the start is set at
    the end: nothing clears it, neither a handler nor the reset logic. *)
Theorem armed_is_never_cleared side fuel (ticks : list Q) (m : Machine W) :
  armed side (self m) <> 0%Z ->
  armed side (self (run broker cfg fuel ticks m)) <> 0%Z.
Proof.
  revert m. induction ticks as [| cp rest IH]; intros m H; cbn [run]; [exact H |].
  pose proof (on_ticks_update_flags side fuel cp m H) as H1.
  destruct (on_ticks_update broker cfg fuel cp m) as [[pe ce] m1]. cbn [snd] in H1.
  destruct (hung pe || _); [exact H1 | apply IH, H1].
Qed.

(** *** The strike loop *)

(** Fuel is only a bound on what is observed: a loop that has stopped
    gives the same answer with more of it. *)
Lemma strike_search_more_fuel n fuel side cp g (m : Machine W) :
  (forall g', fst (strike_search broker cfg fuel side cp g m) <> Unfinished g') ->
  strike_search broker cfg (fuel + n) side cp g m = strike_search broker cfg fuel side cp g m.
Proof.
  revert g m. induction fuel as [| fuel IH]; intros g m H.
  - exfalso. apply (H g). reflexivity.
  - cbn [Nat.add strike_search] in *.
    destruct (find_instrument _ _ _ _ _ _) as [[i |] w1]; [| reflexivity].
    destruct (get_quote _ _ _ _) as [[q |] w2]; [| reflexivity].
    destruct (Py.Qlt_bool q (min_price_to_sell cfg)); [| reflexivity].
    apply IH, H.
Qed.

(** C6.  A handler that gets past the risk check runs the loop from the
    side's configured symbol gap.  One round of the loop at distance [g]:
    if the lookup finds nothing the loop stops, the handler returns and
    neither records an order nor sets a flag; if the found instrument
    quotes at least [min_price_to_sell] it is the one selected; if it
    quotes less, the loop goes round again at [g - nifty_lot_size]. *)
Theorem strike_search_rule side fuel cp g (m : Machine W) :
  let looked := find_instrument broker (symbol_initials cfg) side cp g (world m) in
  let search := strike_search broker cfg (S fuel) side cp g m in
  (advanced (fst (handle_trade side broker cfg fuel cp m)) = true ->
   handle_trade side broker cfg fuel cp m
   = finish_trade broker cfg side (sell_multiplier_of side cfg cp (self m))
       (sell_multiplier_of side cfg cp (self m) * base_quantity side cfg)%Z
       (strike_search broker cfg fuel side cp (symbol_gap side cfg) (advance cfg side cp m)))
  /\ (fst looked = None ->
      fst search = NotFound
      /\ forall k qty,
          fst (finish_trade broker cfg side k qty search) = NoInstrument k
          /\ self (snd (finish_trade broker cfg side k qty search)) = self m
          /\ order_manager (snd (finish_trade broker cfg side k qty search))
             = order_manager m)
  /\ (forall i q w2,
        fst looked = Some i ->
        get_quote broker (tradingsymbol i) (exchange cfg) (snd looked) = (Some q, w2) ->
        (min_price_to_sell cfg <= q -> fst search = Found i)
        /\ (q < min_price_to_sell cfg ->
            search
            = strike_search broker cfg fuel side cp (g - nifty_lot_size cfg)
                (log (PremiumTooLow side q) (set_world w2 m)))).
Proof.
  intros looked search. subst looked search. split.
  { by_cases side fuel cp m; rewrite Hr; cbn [fst advanced]; try discriminate.
    reflexivity. }
  cbn [strike_search].
  destruct (find_instrument _ _ _ _ _ _) as [[i |] w1]; cbn [fst snd].
  - split; [discriminate |]. intros i' q w2 Hi Hq. injection Hi as <-.
    rewrite Hq. split; intro Hc.
    + apply PyFacts.Qlt_bool_false in Hc. rewrite Hc. reflexivity.
    + apply PyFacts.Qlt_bool_iff in Hc. rewrite Hc. reflexivity.
  - split; [| discriminate]. intros _. split; [reflexivity |].
    intros k qty. repeat split.
Qed.

(** C7.  Against a broker whose lookup always finds an instrument and whose
    quotes are always below [min_price_to_sell], the loop is still running
    after any number of rounds, at a distance that has dropped by
    [nifty_lot_size] per round with no floor; a handler that entered the
    loop never leaves it. *)
Theorem strike_search_never_ends side cp :
  (forall g w, fst (find_instrument broker (symbol_initials cfg) side cp g w) <> None) ->
  (forall sym w, exists q,
      fst (get_quote broker sym (exchange cfg) w) = Some q /\ q < min_price_to_sell cfg) ->
  forall fuel,
    (forall g (m : Machine W), exists g',
        fst (strike_search broker cfg fuel side cp g m) = Unfinished g'
        /\ g' == g - inject_Z (Z.of_nat fuel) * nifty_lot_size cfg)
    /\ (forall m : Machine W,
          advanced (fst (handle_trade side broker cfg fuel cp m)) = true ->
          fst (handle_trade side broker cfg fuel cp m)
          = Diverged (sell_multiplier_of side cfg cp (self m))).
Proof.
  intros Hfind Hquote fuel.
  assert (Hloop : forall fuel g (m : Machine W), exists g',
             fst (strike_search broker cfg fuel side cp g m) = Unfinished g'
             /\ g' == g - inject_Z (Z.of_nat fuel) * nifty_lot_size cfg).
  { clear fuel. induction fuel as [| fuel IH]; intros g m.
    - exists g. split; [reflexivity |]. cbn. ring.
    - cbn [strike_search].
      specialize (Hfind g (world m)).
      destruct (find_instrument _ _ _ _ _ _) as [[i |] w1]; [| now elim Hfind].
      destruct (Hquote (tradingsymbol i) w1) as [q [Hq Hlow]].
      destruct (get_quote _ _ _ _) as [q' w2]. cbn [fst] in Hq. subst q'.
      apply PyFacts.Qlt_bool_iff in Hlow. rewrite Hlow.
      destruct (IH (g - nifty_lot_size cfg)
                   (log (PremiumTooLow side q) (set_world w2 m))) as [g' [E1 E2]].
      exists g'. split; [exact E1 |].
      rewrite E2, Nat2Z.inj_succ, <- Z.add_1_r, inject_Z_plus. ring. }
  split; [apply Hloop |].
  intro m. by_cases side fuel cp m; rewrite Hr; cbn [fst advanced]; try discriminate.
  intros _.
  destruct (Hloop fuel (symbol_gap side cfg) (advance cfg side cp m)) as [g' [E _]].
  destruct (strike_search _ _ _ _ _ _ _) as [res m3]. cbn [fst] in E. subst res.
  reflexivity.
Qed.

End SurvivorFacts.

(** * Worked instances on the fixture brokers *)

Ltac numeric :=
  vm_compute;
  first [ reflexivity | discriminate | (let H := fresh in intro H; discriminate H) ].

(** C2.  Reference 24500, gap 25, tick 24530: the trigger fires with
    multiplier 1, the loop selects the strike at distance 150, and the
    broker refuses the order with the sentinel -1.  The failure is logged
    and no order is recorded, yet the PE reset flag, 0 before the tick, is 1
    after it: the assignment after [_place_order] does not look at the
    outcome. *)
Theorem refused_order_still_arms :
  let r := _handle_pe_trade refusing_broker demo_cfg 5 24530 at_24500 in
  fst r = Executed 1 (mkInstrument "OPT150" 24380)
  /\ order_manager (snd r) = []
  /\ logger (snd r)
     = [PremiumTooLow PE 10; ExecuteSell PE "OPT150" 75; OrderPlacementFailed "OPT150" 75]
  /\ nifty_pe_last_value (self (snd r)) = 24525
  /\ pe_reset_gap_flag (self at_24500) = 0%Z
  /\ pe_reset_gap_flag (self (snd r)) = 1%Z.
Proof. vm_compute. repeat split. Qed.

(** C1, counterexample.  Reference 24500, gap 25, threshold 3, tick 24600:
    the trigger fires, the multiplier 4 is rejected, and the PE reference
    is not 24500 + 25 * 4. *)
Lemma rejected_pe_trigger_at_24600 :
  let r := _handle_pe_trade ladder_broker demo_cfg 5 24600 at_24500 in
  beyond PE 24600 (nifty_pe_last_value (self at_24500))
  /\ pe_gap demo_cfg < inject_Z (price_diff_of PE 24600 (self at_24500))
  /\ fst r = Breach 4
  /\ ~ nifty_pe_last_value (self (snd r)) == 24500 + 25 * 4.
Proof.
  vm_compute. split; [reflexivity |]. split; [reflexivity |]. split; [reflexivity |].
  intro H. discriminate H.
Qed.

(** C1, instance of the amended statement at the same tick. *)
Lemma rejected_trigger_changes_nothing_at_24600 :
  beyond PE 24600 (reference PE (self at_24500))
  /\ gap PE demo_cfg < inject_Z (price_diff_of PE 24600 (self at_24500))
  /\ ~ gap PE demo_cfg == 0
  /\ sell_multiplier_threshold demo_cfg
     < inject_Z (sell_multiplier_of PE demo_cfg 24600 (self at_24500))
  /\ self (snd (handle_trade PE ladder_broker demo_cfg 5 24600 at_24500)) = self at_24500.
Proof.
  assert (B : beyond PE 24600 (reference PE (self at_24500))) by numeric.
  assert (G : gap PE demo_cfg < inject_Z (price_diff_of PE 24600 (self at_24500))) by numeric.
  assert (Z : ~ gap PE demo_cfg == 0) by numeric.
  assert (T : sell_multiplier_threshold demo_cfg
              < inject_Z (sell_multiplier_of PE demo_cfg 24600 (self at_24500))) by numeric.
  repeat (split; [assumption |]).
  apply (rejected_trigger_changes_nothing ladder_broker demo_cfg PE 5 24600 at_24500 B G Z T).
Defined.

(** C3, counterexample.  CE reference 24500, gap 25, threshold 3, tick
    24400: the gap threshold is exceeded (100 > 25) with multiplier 4, and
    the CE reference has not gone down by 25 * 4. *)
Lemma rejected_ce_trigger_at_24400 :
  let r := _handle_ce_trade ladder_broker demo_cfg 5 24400 at_24500 in
  beyond CE 24400 (nifty_ce_last_value (self at_24500))
  /\ ce_gap demo_cfg < inject_Z (price_diff_of CE 24400 (self at_24500))
  /\ sell_multiplier_of CE demo_cfg 24400 (self at_24500) = 4%Z
  /\ ~ nifty_ce_last_value (self (snd r)) == 24500 - 25 * 4.
Proof.
  vm_compute. split; [reflexivity |]. split; [reflexivity |]. split; [reflexivity |].
  intro H. discriminate H.
Qed.

(** C3, instance of the amended statement: tick 24530, multiplier 1. *)
Lemma reference_advance_is_kept_at_24530 :
  beyond PE 24530 (reference PE (self at_24500))
  /\ gap PE demo_cfg < inject_Z (price_diff_of PE 24530 (self at_24500))
  /\ ~ gap PE demo_cfg == 0
  /\ inject_Z (sell_multiplier_of PE demo_cfg 24530 (self at_24500))
     <= sell_multiplier_threshold demo_cfg
  /\ reference PE (self (snd (handle_trade PE ladder_broker demo_cfg 5 24530 at_24500)))
     = towards PE 24500 (25 * inject_Z 1).
Proof.
  assert (B : beyond PE 24530 (reference PE (self at_24500))) by numeric.
  assert (G : gap PE demo_cfg < inject_Z (price_diff_of PE 24530 (self at_24500))) by numeric.
  assert (Z : ~ gap PE demo_cfg == 0) by numeric.
  assert (T : inject_Z (sell_multiplier_of PE demo_cfg 24530 (self at_24500))
              <= sell_multiplier_threshold demo_cfg) by numeric.
  repeat (split; [assumption |]).
  apply (reference_advance_is_kept ladder_broker demo_cfg PE 5 24530 at_24500 B G Z T).
Defined.

(** C4, counterexample.  With the PE gap given as -25, reference 24500
    and tick 24530, the trigger fires (30 > -25) with the multiplier
    [int (30 / -25)], which is -1: not the floor of the quotient, which is
    -2, and not at least 1. *)
Lemma negative_gap_trigger_at_24530 :
  let e := fst (_handle_pe_trade ladder_broker negative_gap_cfg 5 24530 at_24500) in
  beyond PE 24530 (nifty_pe_last_value (self at_24500))
  /\ pe_gap negative_gap_cfg < inject_Z (price_diff_of PE 24530 (self at_24500))
  /\ fired e = true
  /\ multiplier e = Some (-1)%Z
  /\ Qfloor (inject_Z (price_diff_of PE 24530 (self at_24500)) / pe_gap negative_gap_cfg)
     = (-2)%Z.
Proof.
  vm_compute. split; [reflexivity |]. split; [reflexivity |]. split; [reflexivity |].
  split; reflexivity.
Qed.

(** C4, instance of the amended statement: gap 25, tick 24530, multiplier
    [30 / 25 = 1]. *)
Lemma trigger_rule_whole_gap_at_24530 :
  gap PE demo_cfg == inject_Z 25
  /\ (0 < 25)%Z
  /\ fired (fst (handle_trade PE ladder_broker demo_cfg 5 24530 at_24500)) = true
  /\ multiplier (fst (handle_trade PE ladder_broker demo_cfg 5 24530 at_24500))
     = Some (price_diff_of PE 24530 (self at_24500) / 25)%Z
  /\ (price_diff_of PE 24530 (self at_24500) / 25 = 1)%Z.
Proof.
  assert (G : gap PE demo_cfg == inject_Z 25) by numeric.
  assert (P : (0 < 25)%Z) by numeric.
  assert (F : fired (fst (handle_trade PE ladder_broker demo_cfg 5 24530 at_24500)) = true)
    by numeric.
  split; [exact G |]. split; [exact P |]. split; [exact F |]. split; [| numeric].
  destruct (trigger_rule_whole_gap ladder_broker demo_cfg PE 5 24530 at_24500) as [_ [H _]].
  exact (proj1 (H 25%Z G P F)).
Defined.

(** C5, instance: multiplier 4 against threshold 3. *)
Lemma risk_gate_rule_at_24600 :
  fst (handle_trade PE ladder_broker demo_cfg 5 24600 at_24500) = Breach 4
  /\ self (snd (handle_trade PE ladder_broker demo_cfg 5 24600 at_24500)) = self at_24500.
Proof.
  assert (B : fst (handle_trade PE ladder_broker demo_cfg 5 24600 at_24500) = Breach 4)
    by numeric.
  split; [exact B |].
  destruct (risk_gate_rule ladder_broker demo_cfg PE 5 24600 at_24500 4) as [_ [_ [_ [_ H]]]].
  exact (H B).
Defined.

(** C6, instance: start at 200 with lot size 50 and minimum premium 15; the
    first candidate quotes 10, so the loop goes on at 150; the second
    quotes 20 and is selected. *)
Lemma strike_search_from_200_to_150 :
  fst (find_instrument ladder_broker (symbol_initials demo_cfg) PE 24530 200 (world at_24500))
  = Some (mkInstrument "OPT200" 24330)
  /\ get_quote ladder_broker "OPT200" (exchange demo_cfg) 1%nat = (Some 10, 2%nat)
  /\ 10 < min_price_to_sell demo_cfg
  /\ strike_search ladder_broker demo_cfg 5 PE 24530 200 at_24500
     = strike_search ladder_broker demo_cfg 4 PE 24530 (200 - 50)
         (log (PremiumTooLow PE 10) (set_world 2%nat at_24500))
  /\ min_price_to_sell demo_cfg <= 20
  /\ fst (strike_search ladder_broker demo_cfg 5 PE 24530 200 at_24500)
     = Found (mkInstrument "OPT150" 24380).
Proof.
  assert (L : 10 < min_price_to_sell demo_cfg) by numeric.
  assert (U : min_price_to_sell demo_cfg <= 20) by numeric.
  destruct (strike_search_rule ladder_broker demo_cfg PE 4 24530 200 at_24500)
    as [_ [_ Hfirst]].
  destruct (Hfirst (mkInstrument "OPT200" 24330) 10 2%nat eq_refl eq_refl) as [_ Hretry].
  destruct (strike_search_rule ladder_broker demo_cfg PE 3 24530 (200 - 50)
              (log (PremiumTooLow PE 10) (set_world 2%nat at_24500)))
    as [_ [_ Hsecond]].
  destruct (Hsecond (mkInstrument "OPT150" 24380) 20 4%nat eq_refl eq_refl) as [Hfound _].
  split; [reflexivity |]. split; [reflexivity |]. split; [exact L |].
  split; [exact (Hretry L) |]. split; [exact U |].
  rewrite (Hretry L). exact (Hfound U).
Defined.

(** C7, instance: a broker that lists a strike at every distance and
    quotes 1 for each.  After ten rounds from 200 the loop is at -300;
    after a thousand the handler has still not left it. *)
Lemma cheap_broker_never_ends :
  (forall g w,
      fst (find_instrument cheap_broker (symbol_initials demo_cfg) PE 24530 g w) <> None)
  /\ (forall sym w, exists q,
         fst (get_quote cheap_broker sym (exchange demo_cfg) w) = Some q
         /\ q < min_price_to_sell demo_cfg)
  /\ (exists g',
         fst (strike_search cheap_broker demo_cfg 10 PE 24530 200 at_24500) = Unfinished g'
         /\ g' == 200 - inject_Z 10 * 50)
  /\ fst (handle_trade PE cheap_broker demo_cfg 1000 24530 at_24500) = Diverged 1.
Proof.
  assert (F : forall g w,
             fst (find_instrument cheap_broker (symbol_initials demo_cfg) PE 24530 g w)
             <> None) by (intros g w; discriminate).
  assert (Q : forall sym w, exists q,
             fst (get_quote cheap_broker sym (exchange demo_cfg) w) = Some q
             /\ q < min_price_to_sell demo_cfg)
    by (intros sym w; exists 1; split; reflexivity).
  split; [exact F |]. split; [exact Q |]. split.
  - exact (proj1 (strike_search_never_ends cheap_broker demo_cfg PE 24530 F Q 10%nat)
                 200 at_24500).
  - apply (proj2 (strike_search_never_ends cheap_broker demo_cfg PE 24530 F Q 1000%nat)).
    numeric.
Defined.

(** C8, instance: flag set, PE reference 24550, reset gap 50, tick 24480;
    the retracement 70 is above 50 and the reference becomes 24530. *)
Lemma reset_rule_at_24480 :
  (reset_gap PE demo_cfg < retrace PE 24480 (reference PE (self (fresh 1 0 24550 24500)))
   /\ armed PE (self (fresh 1 0 24550 24500)) <> 0%Z)
  /\ reference PE (self (_reset_reference_values demo_cfg 24480 (fresh 1 0 24550 24500)))
     = relocation PE demo_cfg 24480
  /\ relocation PE demo_cfg 24480 == 24530.
Proof.
  assert (D : reset_gap PE demo_cfg
              < retrace PE 24480 (reference PE (self (fresh 1 0 24550 24500)))
              /\ armed PE (self (fresh 1 0 24550 24500)) <> 0%Z)
    by (split; numeric).
  split; [exact D |]. split; [| numeric].
  exact (proj1 (reset_rule demo_cfg PE 24480 (fresh 1 0 24550 24500)) D).
Defined.

(** C9, instance: the PE flag is set by the tick at 24530 and is still set
    after three further ticks, two of which relocate the PE reference. *)
Lemma armed_after_three_more_ticks :
  armed PE (self at_24500) = 0%Z
  /\ armed PE (self (run ladder_broker demo_cfg 5 [24530] at_24500)) <> 0%Z
  /\ armed PE (self (run ladder_broker demo_cfg 5 [24440; 24400; 24700]
                         (run ladder_broker demo_cfg 5 [24530] at_24500))) <> 0%Z.
Proof.
  assert (A : armed PE (self (run ladder_broker demo_cfg 5 [24530] at_24500)) <> 0%Z)
    by numeric.
  split; [reflexivity |]. split; [exact A |].
  exact (armed_is_never_cleared ladder_broker demo_cfg PE 5 [24440; 24400; 24700]
           (run ladder_broker demo_cfg 5 [24530] at_24500) A).
Defined.


(** * Further facts *)

Section SurvivorMore.
Context {W : Type} (broker : Broker W) (cfg : Config).

Ltac cases side fuel cp m :=
  destruct (handle_trade_cases broker cfg side fuel cp m)
    as [[Hq Hr]
       | [[Hb [Hg Hr]]
         | [[Hb [Hg [Hz Hr]]]
           | [[Hb [Hg [Hz [Ht Hr]]]]
             | [Hb [Hg [Hz [Ht Hr]]]]]]]];
  cbv zeta in *.

Lemma finish_trade_other side k qty (r : SearchResult * Machine W) :
  self (snd (finish_trade broker cfg side k qty r)) = self (snd r)
  \/ self (snd (finish_trade broker cfg side k qty r))
     = match side with PE => set_pe_flag 1 | CE => set_ce_flag 1 end (self (snd r)).
Proof.
  destruct r as [[i | | | g] m]; try (left; reflexivity).
  right. cbn -[_place_order]. rewrite place_order_self. reflexivity.
Qed.

(** X1.  A trade handler never touches the other side: the PE handler
    leaves the CE reference and the CE flag as they were, and the CE
    handler leaves the PE ones. *)
Theorem handler_leaves_other_side side fuel cp (m : Machine W) :
  let m' := snd (handle_trade side broker cfg fuel cp m) in
  reference (other side) (self m') = reference (other side) (self m)
  /\ armed (other side) (self m') = armed (other side) (self m).
Proof.
  cbv zeta. cases side fuel cp m; rewrite Hr; try (split; reflexivity).
  destruct (finish_trade_other side (sell_multiplier_of side cfg cp (self m))
              (sell_multiplier_of side cfg cp (self m) * base_quantity side cfg)%Z
              (strike_search broker cfg fuel side cp (symbol_gap side cfg)
                 (advance cfg side cp m))) as [E | E];
    rewrite E, strike_search_self; destruct side; split; reflexivity.
Qed.

(** X2.  A handler that does not get past the risk check (price on the quiet
    side, gap not exceeded, zero gap, multiplier rejected) makes no broker
    call, records no order and changes no strategy attribute. *)
Theorem broker_untouched_unless_advanced side fuel cp (m : Machine W) :
  advanced (fst (handle_trade side broker cfg fuel cp m)) = false ->
  let m' := snd (handle_trade side broker cfg fuel cp m) in
  self m' = self m /\ world m' = world m /\ order_manager m' = order_manager m.
Proof.
  cbv zeta. cases side fuel cp m; rewrite Hr; cbn [fst snd]; try solve [intros _; repeat split].
  intro H.
  destruct (finish_trade_exit broker cfg side (sell_multiplier_of side cfg cp (self m))
              (sell_multiplier_of side cfg cp (self m) * base_quantity side cfg)%Z
              (strike_search broker cfg fuel side cp (symbol_gap side cfg)
                 (advance cfg side cp m))) as [Ha _].
  congruence.
Qed.

Lemma place_order_accepted sym qty (m : Machine W) :
  let answer := place_order broker sym qty (trans_type cfg) (order_type cfg) "REGULAR"
                            (exchange cfg) (product_type cfg) "Survivor" (world m) in
  fst answer <> (-1)%Z ->
  order_manager (_place_order broker cfg sym qty m)
  = order_manager m
      ++ [mkOrder (fst answer) sym (trans_type cfg) qty (now broker (snd answer))].
Proof.
  cbv zeta. unfold _place_order.
  destruct (place_order _ _ _ _ _ _ _ _ _ _) as [oid w1]. cbn [fst snd].
  intro H. apply Z.eqb_neq in H. rewrite H. reflexivity.
Qed.

(** X3.  When a handler breaks out of its loop with an instrument, the
    side's flag is 1 and the order sent is for that instrument's trading
    symbol with quantity multiplier times the side's base quantity; the
    order tracker gains exactly that one record when the broker answers
    with an id other than -1, and nothing when it answers -1. *)
Theorem executed_trade_record side fuel cp (m : Machine W) k i :
  fst (handle_trade side broker cfg fuel cp m) = Executed k i ->
  let searched :=
    snd (strike_search broker cfg fuel side cp (symbol_gap side cfg) (advance cfg side cp m)) in
  let qty := (k * base_quantity side cfg)%Z in
  let answer := place_order broker (tradingsymbol i) qty (trans_type cfg) (order_type cfg)
                            "REGULAR" (exchange cfg) (product_type cfg) "Survivor"
                            (world searched) in
  let m' := snd (handle_trade side broker cfg fuel cp m) in
  k = sell_multiplier_of side cfg cp (self m)
  /\ armed side (self m') = 1%Z
  /\ (fst answer = (-1)%Z -> order_manager m' = order_manager m)
  /\ (fst answer <> (-1)%Z ->
      order_manager m'
      = order_manager m
          ++ [mkOrder (fst answer) (tradingsymbol i) (trans_type cfg) qty
                      (now broker (snd answer))]).
Proof.
  cbv zeta. cases side fuel cp m; rewrite Hr; cbn [fst snd]; try discriminate.
  pose proof (strike_search_orders broker cfg fuel side cp (symbol_gap side cfg)
                (advance cfg side cp m)) as Ho.
  destruct (strike_search broker cfg fuel side cp (symbol_gap side cfg)
              (advance cfg side cp m)) as [[j | | | g] m3]; cbn -[_place_order];
    try discriminate.
  cbn [snd] in Ho. intro E. injection E as <- <-.
  split; [reflexivity |]. split; [destruct side; reflexivity |]. split.
  - intro Hrefused.
    destruct (place_order_refused broker cfg (tradingsymbol j) _
                (log (ExecuteSell side (tradingsymbol j)
                        (sell_multiplier_of side cfg cp (self m) * base_quantity side cfg)%Z)
                     m3) Hrefused) as [_ [Hk _]].
    rewrite Hk. exact Ho.
  - intro Haccepted.
    rewrite (place_order_accepted (tradingsymbol j) _
               (log (ExecuteSell side (tradingsymbol j)
                       (sell_multiplier_of side cfg cp (self m) * base_quantity side cfg)%Z)
                    m3) Haccepted).
    cbn [order_manager log world]. rewrite Ho. reflexivity.
Qed.

(** X4.  A handler that leaves any other way than through an executed trade
    records no order and leaves its side's flag as it was, also when the
    reference has already been advanced. *)
Theorem no_order_without_execution side fuel cp (m : Machine W) :
  (forall k i, fst (handle_trade side broker cfg fuel cp m) <> Executed k i) ->
  let m' := snd (handle_trade side broker cfg fuel cp m) in
  order_manager m' = order_manager m /\ armed side (self m') = armed side (self m).
Proof.
  cbv zeta. cases side fuel cp m; rewrite Hr; cbn [fst snd]; try solve [intros _; repeat split].
  pose proof (strike_search_orders broker cfg fuel side cp (symbol_gap side cfg)
                (advance cfg side cp m)) as Ho.
  pose proof (strike_search_self broker cfg fuel side cp (symbol_gap side cfg)
                (advance cfg side cp m)) as Hs.
  destruct (strike_search broker cfg fuel side cp (symbol_gap side cfg)
              (advance cfg side cp m)) as [[j | | | g] m3]; cbn -[_place_order];
    cbn [snd] in Ho, Hs; intro H.
  - exfalso. eapply H. reflexivity.
  - rewrite Ho, Hs, advance_flags. split; reflexivity.
  - rewrite Ho, Hs, advance_flags. split; reflexivity.
  - rewrite Ho, Hs, advance_flags. split; reflexivity.
Qed.

(** X5.  With a positive gap and a non-negative base quantity, an executed
    trade has a multiplier between 1 and the threshold, so its quantity
    lies between the base quantity and threshold times the base
    quantity. *)
Theorem executed_quantity_bounds side fuel cp (m : Machine W) k i :
  0 < gap side cfg ->
  (0 <= base_quantity side cfg)%Z ->
  fst (handle_trade side broker cfg fuel cp m) = Executed k i ->
  (1 <= k)%Z
  /\ inject_Z k <= sell_multiplier_threshold cfg
  /\ (base_quantity side cfg <= k * base_quantity side cfg)%Z
  /\ inject_Z (k * base_quantity side cfg)
     <= sell_multiplier_threshold cfg * inject_Z (base_quantity side cfg).
Proof.
  intros P B E.
  assert (Hk : (1 <= k)%Z /\ inject_Z k <= sell_multiplier_threshold cfg).
  { revert E. cases side fuel cp m; rewrite Hr; cbn [fst]; try discriminate.
    destruct (PyFacts.int_past_gap _ _ P Hg) as [_ Eo].
    fold (sell_multiplier_of side cfg cp (self m)) in Eo.
    destruct (strike_search broker cfg fuel side cp (symbol_gap side cfg)
                (advance cfg side cp m)) as [[j | | | g] m3]; cbn -[_place_order];
      try discriminate.
    intro E. injection E as <- <-. split; assumption. }
  destruct Hk as [H1 Ht]. split; [exact H1 |]. split; [exact Ht |]. split; [nia |].
  rewrite inject_Z_mult.
  assert (Hb : 0 <= inject_Z (base_quantity side cfg))
    by (change 0 with (inject_Z 0); rewrite <- Zle_Qle; exact B).
  nra.
Qed.

(** X6.  An instrument selected by the strike loop was returned by a
    lookup at the start distance minus a whole number of lot sizes, and
    the quote fetched for it in that round was at least
    [min_price_to_sell]. *)
Theorem selected_strike_was_quoted_enough fuel side cp g (m : Machine W) i :
  fst (strike_search broker cfg fuel side cp g m) = Found i ->
  exists (n : nat) g' w w1 q,
    (n < fuel)%nat
    /\ g' == g - inject_Z (Z.of_nat n) * nifty_lot_size cfg
    /\ find_instrument broker (symbol_initials cfg) side cp g' w = (Some i, w1)
    /\ get_quote broker (tradingsymbol i) (exchange cfg) w1
       = (Some q, world (snd (strike_search broker cfg fuel side cp g m)))
    /\ min_price_to_sell cfg <= q.
Proof.
  revert g m. induction fuel as [| fuel IH]; intros g m; cbn [strike_search];
    [discriminate |].
  destruct (find_instrument broker (symbol_initials cfg) side cp g (world m))
    as [[j |] w1] eqn:Ef; [| discriminate].
  destruct (get_quote broker (tradingsymbol j) (exchange cfg) w1) as [[q |] w2] eqn:Eq;
    [| discriminate].
  destruct (Py.Qlt_bool q (min_price_to_sell cfg)) eqn:Ec.
  - intro H. destruct (IH _ _ H) as (n & g' & w & w1' & q' & Hn & Hg & Hf & Hq & Hm).
    exists (S n), g', w, w1', q'. repeat split; try assumption; [lia |].
    rewrite Hg, Nat2Z.inj_succ, <- Z.add_1_r, inject_Z_plus. ring.
  - cbn [fst snd]. intro H. injection H as <-.
    apply PyFacts.Qlt_bool_false in Ec.
    exists O, g, (world m), w1, q. repeat split; try assumption; [lia | cbn; ring].
Qed.

Lemma round_comp x y : x == y -> Py.round x = Py.round y.
Proof.
  intro E. unfold Py.round.
  assert (Ef : Qfloor x = Qfloor y) by (rewrite E; reflexivity).
  assert (Ec : Qcompare (x - inject_Z (Qfloor x)) (1 # 2)
               = Qcompare (y - inject_Z (Qfloor y)) (1 # 2))
    by (rewrite Ef, E; reflexivity).
  rewrite Ec, Ef. reflexivity.
Qed.

Lemma round_below_half x (n : Z) : x < inject_Z n + (1 # 2) -> (Py.round x <= n)%Z.
Proof.
  intro H. pose proof (PyFacts.round_upper x) as Hu.
  destruct (Z_le_gt_dec (Py.round x) n) as [L | G]; [exact L | exfalso].
  assert (G' : (n + 1 <= Py.round x)%Z) by lia.
  rewrite Zle_Qle, inject_Z_plus in G'. change (inject_Z 1) with 1 in G'. lra.
Qed.


(** A move of less than [g + 1/2] rounds to at most [g] and does not
    fire. *)
Lemma below_half_does_not_fire side fuel cp (m : Machine W) (g : Z) :
  gap side cfg == inject_Z g ->
  travel side cp (reference side (self m)) < inject_Z g + (1 # 2) ->
  fired (fst (handle_trade side broker cfg fuel cp m)) = false.
Proof.
  intros Eg H. apply not_true_is_false. intro F.
  apply (fired_iff broker cfg) in F. destruct F as [_ F].
  apply round_below_half in H. fold (price_diff_of side cp (self m)) in H.
  rewrite Zle_Qle in H. lra.
Qed.


Lemma travel_towards side cp ref x :
  travel side cp (towards side ref x) == travel side cp ref - x.
Proof. destruct side; cbn; ring. Qed.

(** X10.  With a whole-number gap, once a handler has advanced its
    reference, calling it again at the same price does not fire. *)
Theorem no_second_trigger_at_same_price side fuel fuel' cp (m : Machine W) (g : Z) :
  gap side cfg == inject_Z g ->
  (0 < g)%Z ->
  advanced (fst (handle_trade side broker cfg fuel cp m)) = true ->
  fired (fst (handle_trade side broker cfg fuel' cp
                (snd (handle_trade side broker cfg fuel cp m)))) = false.
Proof.
  intros Eg Pg Hadv.
  assert (P : 0 < gap side cfg)
    by (rewrite Eg; change 0 with (inject_Z 0); rewrite <- Zlt_Qlt; exact Pg).
  apply (below_half_does_not_fire side fuel' cp _ g Eg).
  revert Hadv. cases side fuel cp m; rewrite Hr; cbn [fst snd advanced]; try discriminate.
  intros _. rewrite finish_trade_reference, strike_search_self, advance_reference.
  rewrite travel_towards.
  set (d := travel side cp (reference side (self m))).
  set (pd := price_diff_of side cp (self m)) in *.
  set (k := sell_multiplier_of side cfg cp (self m)) in *.
  pose proof (PyFacts.round_lower d) as Hl. fold (price_diff_of side cp (self m)) in Hl.
  fold pd in Hl.
  destruct (PyFacts.int_past_gap _ _ P Hg) as [Ei _].
  fold (sell_multiplier_of side cfg cp (self m)) in Ei. fold k pd in Ei.
  pose proof (Qlt_floor (inject_Z pd / gap side cfg)) as Hf. rewrite <- Ei in Hf.
  assert (Hq : gap side cfg * (inject_Z pd / gap side cfg) == inject_Z pd)
    by (apply Qmult_div_r; lra).
  assert (Hlt : inject_Z pd < gap side cfg * inject_Z (k + 1)).
  { rewrite <- Hq at 1. apply Qmult_lt_l; assumption. }
  rewrite Eg, <- inject_Z_mult, <- Zlt_Qlt in Hlt.
  assert (Hi : (pd - g * k + 1 <= g)%Z) by lia.
  unfold Z.sub in Hi.
  rewrite Zle_Qle, !inject_Z_plus, inject_Z_opp, inject_Z_mult in Hi.
  change (inject_Z 1) with 1 in Hi.
  change (Py.round d) with pd in Hl.
  rewrite Eg. lra.
Qed.

(** What a handler that stops short of the reference update leaves. *)
Lemma short_exit_keeps_self side fuel cp (m : Machine W) :
  advanced (fst (handle_trade side broker cfg fuel cp m)) = false ->
  self (snd (handle_trade side broker cfg fuel cp m)) = self m.
Proof.
  cases side fuel cp m; rewrite Hr; cbn [fst snd]; try solve [intros _; reflexivity].
  intro H.
  destruct (finish_trade_exit broker cfg side (sell_multiplier_of side cfg cp (self m))
              (sell_multiplier_of side cfg cp (self m) * base_quantity side cfg)%Z
              (strike_search broker cfg fuel side cp (symbol_gap side cfg)
                 (advance cfg side cp m))) as [Ha _].
  congruence.
Qed.

(** The reference a side has after the reset logic. *)
Lemma reset_reference_value side cp (m : Machine W) :
  reference side (self (_reset_reference_values cfg cp m))
  = if Py.Qlt_bool (reset_gap side cfg) (retrace side cp (reference side (self m)))
       && Py.truthy (armed side (self m))
    then relocation side cfg cp
    else reference side (self m).
Proof.
  unfold _reset_reference_values.
  destruct side; cbn [reset_gap retrace reference armed relocation];
    destruct (Py.Qlt_bool (pe_reset_gap cfg) _ && Py.truthy _);
    cbn [self set_self set_pe_last set_ce_last log nifty_pe_last_value nifty_ce_last_value
         pe_reset_gap_flag ce_reset_gap_flag];
    destruct (Py.Qlt_bool (ce_reset_gap cfg) _ && Py.truthy _);
    reflexivity.
Qed.

(** X11.  With a positive gap, a handler never moves its side's reference
    away from the trigger side (the PE reference is never lowered, the CE
    reference never raised) and leaves it alone unless it gets past the
    risk check; the reset logic never moves a reference towards the
    trigger side. *)
Theorem reference_moves_one_way side fuel cp (m : Machine W) :
  0 < gap side cfg ->
  let e := fst (handle_trade side broker cfg fuel cp m) in
  let after_trade := reference side (self (snd (handle_trade side broker cfg fuel cp m))) in
  let after_reset := reference side (self (_reset_reference_values cfg cp m)) in
  (advanced e = false -> after_trade = reference side (self m))
  /\ 0 <= travel side after_trade (reference side (self m))
  /\ 0 <= retrace side after_reset (reference side (self m)).
Proof.
  intros P e after_trade after_reset. subst e after_trade after_reset.
  split; [| split].
  - intro H. rewrite (short_exit_keeps_self side fuel cp m H). reflexivity.
  - destruct (advanced (fst (handle_trade side broker cfg fuel cp m))) eqn:A.
    + revert A.
      cases side fuel cp m; rewrite Hr; cbn [fst snd advanced]; try discriminate.
      intros _. rewrite finish_trade_reference, strike_search_self, advance_reference.
      destruct (PyFacts.int_past_gap _ _ P Hg) as [_ Eo].
      fold (sell_multiplier_of side cfg cp (self m)) in Eo.
      rewrite Zle_Qle in Eo. change (inject_Z 1) with 1 in Eo.
      destruct side; cbn [travel towards]; nra.
    + rewrite (short_exit_keeps_self side fuel cp m A). destruct side; cbn; lra.
  - rewrite reset_reference_value.
    destruct (Py.Qlt_bool (reset_gap side cfg) (retrace side cp (reference side (self m))))
      eqn:E; cbn [andb].
    + apply PyFacts.Qlt_bool_iff in E.
      destruct (Py.truthy (armed side (self m)));
        destruct side; cbn [retrace relocation reset_gap] in *; lra.
    + destruct side; cbn; lra.
Qed.

(** *** Orders and log lines are only ever appended *)

Lemma extends_refl {A} (l : list A) : extends l l.
Proof. exists []. symmetry. apply app_nil_r. Qed.

Lemma extends_trans {A} (l1 l2 l3 : list A) : extends l1 l2 -> extends l2 l3 -> extends l1 l3.
Proof. intros [t ->] [u ->]. exists (t ++ u). symmetry. apply app_assoc. Qed.

Lemma extends_snoc {A} (l : list A) x : extends l (l ++ [x]).
Proof. exists [x]. reflexivity. Qed.

Lemma grows_refl (m : Machine W) : grows m m.
Proof. split; apply extends_refl. Qed.

Lemma grows_trans (m1 m2 m3 : Machine W) : grows m1 m2 -> grows m2 m3 -> grows m1 m3.
Proof. intros [A B] [C D]. split; eapply extends_trans; eassumption. Qed.

Lemma strike_search_grows fuel side cp g (m : Machine W) :
  grows m (snd (strike_search broker cfg fuel side cp g m)).
Proof.
  revert g m. induction fuel as [| fuel IH]; intros g m; cbn [strike_search];
    [apply grows_refl |].
  destruct (find_instrument _ _ _ _ _ _) as [[i |] w1].
  2:{ split; [apply extends_refl | apply extends_snoc]. }
  destruct (get_quote _ _ _ _) as [[q |] w2]; [| split; apply extends_refl].
  destruct (Py.Qlt_bool q (min_price_to_sell cfg)); [| split; apply extends_refl].
  eapply grows_trans; [| apply IH]. split; [apply extends_refl | apply extends_snoc].
Qed.

Lemma place_order_grows sym qty (m : Machine W) :
  grows m (_place_order broker cfg sym qty m).
Proof.
  unfold _place_order. destruct (place_order _ _ _ _ _ _ _ _ _ _) as [oid w1].
  destruct (oid =? -1)%Z; split; cbn;
    try apply extends_refl; apply extends_snoc.
Qed.

Lemma finish_trade_grows side k qty (r : SearchResult * Machine W) :
  grows (snd r) (snd (finish_trade broker cfg side k qty r)).
Proof.
  destruct r as [[i | | | g] m]; try apply grows_refl.
  cbn -[_place_order].
  eapply grows_trans; [| apply (place_order_grows (tradingsymbol i) qty)].
  split; [apply extends_refl | apply extends_snoc].
Qed.

Lemma handle_trade_grows side fuel cp (m : Machine W) :
  grows m (snd (handle_trade side broker cfg fuel cp m)).
Proof.
  cases side fuel cp m; rewrite Hr; cbn [snd]; try apply grows_refl.
  - split; [apply extends_refl | apply extends_snoc].
  - split; [apply extends_refl |]. exists [MultiplierBreached (sell_multiplier_of side cfg cp (self m)); MultiplierBreached (sell_multiplier_of side cfg cp (self m))].
    cbn. rewrite <- app_assoc. reflexivity.
  - eapply grows_trans; [| apply finish_trade_grows].
    eapply grows_trans; [| apply strike_search_grows]. split; apply extends_refl.
Qed.

Lemma reset_grows cp (m : Machine W) : grows m (_reset_reference_values cfg cp m).
Proof.
  unfold _reset_reference_values.
  destruct (Py.Qlt_bool (pe_reset_gap cfg) _ && Py.truthy _);
    destruct (Py.Qlt_bool (ce_reset_gap cfg) _ && Py.truthy _);
    split; cbn; try apply extends_refl; try apply extends_snoc.
  eexists. rewrite <- app_assoc. reflexivity.
Qed.

Lemma on_ticks_update_grows fuel cp (m : Machine W) :
  grows m (snd (on_ticks_update broker cfg fuel cp m)).
Proof.
  unfold on_ticks_update.
  pose proof (handle_trade_grows PE fuel cp m) as H1. cbn [handle_trade] in H1.
  destruct (_handle_pe_trade broker cfg fuel cp m) as [pe m1]. cbn [snd] in H1.
  destruct (abnormal pe); [exact H1 |].
  pose proof (handle_trade_grows CE fuel cp m1) as H2. cbn [handle_trade] in H2.
  destruct (_handle_ce_trade broker cfg fuel cp m1) as [ce m2]. cbn [snd] in H2.
  destruct (abnormal ce); cbn [snd].
  - eapply grows_trans; eassumption.
  - eapply grows_trans; [| apply reset_grows]. eapply grows_trans; eassumption.
Qed.

(** X12.  Over any list of ticks, the order tracker and the log at the end
    are those at the start with entries appended: nothing is dropped or
    rewritten. *)
Theorem run_only_appends fuel (ticks : list Q) (m : Machine W) :
  extends (order_manager m) (order_manager (run broker cfg fuel ticks m))
  /\ extends (logger m) (logger (run broker cfg fuel ticks m)).
Proof.
  change (grows m (run broker cfg fuel ticks m)).
  revert m. induction ticks as [| cp rest IH]; intro m; cbn [run]; [apply grows_refl |].
  pose proof (on_ticks_update_grows fuel cp m) as H.
  destruct (on_ticks_update broker cfg fuel cp m) as [[pe ce] m1]. cbn [snd] in H.
  destruct (hung pe || _); [exact H |]. eapply grows_trans; [exact H | apply IH].
Qed.

(** *** The stand-alone strike search *)

(** X13.  [_find_price_eligible_symbol] changes no strategy attribute,
    records no order and logs nothing; an instrument it returns was
    quoted at least [min_price_to_sell] in its last broker call. *)
Theorem eligible_symbol_is_read_only fuel side (m : Machine W) :
  let r := _find_price_eligible_symbol broker cfg fuel side m in
  self (snd r) = self m
  /\ order_manager (snd r) = order_manager m
  /\ logger (snd r) = logger m
  /\ (forall i, fst r = Found i ->
        exists w q,
          get_quote broker (tradingsymbol i) (exchange cfg) w = (Some q, world (snd r))
          /\ min_price_to_sell cfg <= q).
Proof.
  cbv zeta. unfold _find_price_eligible_symbol. generalize (symbol_gap side cfg).
  revert m. induction fuel as [| fuel IH]; intros m g; cbn [eligible_loop].
  { repeat split. discriminate. }
  destruct (_nifty_quote broker (world m)) as [[ltp |] w0].
  2:{ repeat split. discriminate. }
  destruct (find_instrument _ _ _ _ _ _) as [[j |] w1].
  2:{ repeat split. discriminate. }
  destruct (get_quote broker (tradingsymbol j) (exchange cfg) w1) as [[q |] w2] eqn:Eq.
  2:{ repeat split. discriminate. }
  destruct (Py.Qlt_bool q (min_price_to_sell cfg)) eqn:Ec.
  - destruct (IH (set_world w2 m) (g - nifty_lot_size cfg)) as [Hs [Ho [Hl Hf]]].
    rewrite Hs, Ho, Hl. repeat split. exact Hf.
  - repeat split. cbn [fst snd]. intros i E. injection E as <-.
    exists w1, q. split; [exact Eq |]. apply PyFacts.Qlt_bool_false. exact Ec.
Qed.

(** X14.  Against a broker whose answers do not depend on earlier calls and
    whose index quote is the tick price, [_find_price_eligible_symbol]
    and the loop written out in the handlers stop the same way, with the
    same instrument. *)
Theorem eligible_symbol_agrees_with_inline_search fuel side cp (m m' : Machine W) :
  (forall w, fst (_nifty_quote broker w) = Some cp) ->
  (forall si s p g w w',
      fst (find_instrument broker si s p g w) = fst (find_instrument broker si s p g w')) ->
  (forall sym ex w w', fst (get_quote broker sym ex w) = fst (get_quote broker sym ex w')) ->
  fst (_find_price_eligible_symbol broker cfg fuel side m)
  = fst (strike_search broker cfg fuel side cp (symbol_gap side cfg) m').
Proof.
  intros Hn Hf Hq. unfold _find_price_eligible_symbol. generalize (symbol_gap side cfg).
  revert m m'. induction fuel as [| fuel IH]; intros m m' g;
    cbn [eligible_loop strike_search]; [reflexivity |].
  specialize (Hn (world m)).
  destruct (_nifty_quote broker (world m)) as [nifty w0]. cbn [fst] in Hn. subst nifty.
  specialize (Hf (symbol_initials cfg) side cp g w0 (world m')).
  destruct (find_instrument broker (symbol_initials cfg) side cp g w0) as [f1 w1].
  destruct (find_instrument broker (symbol_initials cfg) side cp g (world m')) as [f2 w1'].
  cbn [fst] in Hf. subst f2. destruct f1 as [j |]; [| reflexivity].
  specialize (Hq (tradingsymbol j) (exchange cfg) w1 w1').
  destruct (get_quote broker (tradingsymbol j) (exchange cfg) w1) as [q1 w2].
  destruct (get_quote broker (tradingsymbol j) (exchange cfg) w1') as [q2 w2'].
  cbn [fst] in Hq. subst q2. destruct q1 as [q |]; [| reflexivity].
  destruct (Py.Qlt_bool q (min_price_to_sell cfg)); [| reflexivity].
  apply IH.
Qed.

(** *** Initialisation *)

(** X15.  Initialisation fails exactly when the index quote is missing and
    one of the start points is 0.  When it succeeds, exactly the one quote
    call has been made, no order is recorded, and each reference is the
    quoted price if its start point is 0 and the start point otherwise. *)
Theorem initialize_state_rule (w : W) :
  let quote := fst (_nifty_quote broker w) in
  (_initialize_state broker cfg w = None
   <-> quote = None /\ (pe_start_point cfg == 0 \/ ce_start_point cfg == 0))
  /\ (forall m, _initialize_state broker cfg w = Some m ->
        world m = snd (_nifty_quote broker w)
        /\ order_manager m = []
        /\ (pe_start_point cfg == 0 -> Some (nifty_pe_last_value (self m)) = quote)
        /\ (~ pe_start_point cfg == 0 -> nifty_pe_last_value (self m) = pe_start_point cfg)
        /\ (ce_start_point cfg == 0 -> Some (nifty_ce_last_value (self m)) = quote)
        /\ (~ ce_start_point cfg == 0 -> nifty_ce_last_value (self m) = ce_start_point cfg)).
Proof.
  cbv zeta. unfold _initialize_state.
  destruct (_nifty_quote broker w) as [quote w1]. cbn [fst snd].
  destruct (Qeq_bool (pe_start_point cfg) 0) eqn:Ep;
    [apply Qeq_bool_iff in Ep | apply PyFacts.Qeq_bool_false in Ep];
    (destruct (Qeq_bool (ce_start_point cfg) 0) eqn:Ec;
     [apply Qeq_bool_iff in Ec | apply PyFacts.Qeq_bool_false in Ec]);
    destruct quote as [q |]; (split; [split |]);
    try discriminate;
    try (intros [H _]; discriminate H);
    try (intros [_ [H | H]]; contradiction);
    try (intros _; split; [reflexivity | tauto]);
    try (intros m H; discriminate H);
    try (intros m H; injection H as <-; cbn;
         repeat split; intros; try reflexivity; contradiction);
    intros _; reflexivity.
Qed.

End SurvivorMore.

(** ** Start-up code *)

Module MainFacts.
Import Main.

Lemma get_set_same d k v : dict_get (dict_set d k v) k = Some v.
Proof.
  induction d as [| [k' o] rest IH]; cbn.
  - now rewrite String.eqb_refl.
  - destruct (String.eqb k' k) eqn:E; cbn; rewrite E; [reflexivity | exact IH].
Qed.

Lemma get_set_other d k v k' : k <> k' -> dict_get (dict_set d k v) k' = dict_get d k'.
Proof.
  intro N. induction d as [| [j o] rest IH]; cbn.
  - destruct (String.eqb k k') eqn:E; [apply String.eqb_eq in E; contradiction | reflexivity].
  - destruct (String.eqb j k) eqn:E; cbn.
    + apply String.eqb_eq in E. subst j.
      destruct (String.eqb k k') eqn:E'; [apply String.eqb_eq in E'; contradiction | reflexivity].
    + destruct (String.eqb j k'); [reflexivity | exact IH].
Qed.

Lemma set_keeps_keys d k v : map fst (dict_set d k v) = map fst d \/ map fst (dict_set d k v) = map fst d ++ [k].
Proof.
  induction d as [| [j o] rest IH]; cbn.
  - right. reflexivity.
  - destruct (String.eqb j k); cbn; [left; reflexivity |].
    destruct IH as [-> | ->]; [left | right]; reflexivity.
Qed.

Lemma overrides_from_get mapping args acc key :
  (forall e, In e mapping -> fst e = snd e) ->
  dict_get (fst (apply_overrides_from mapping args acc)) key
  = if existsb (fun e => String.eqb (snd e) key) mapping
    then match dict_get args key with
         | Some v => Some v
         | None => dict_get (fst acc) key
         end
    else dict_get (fst acc) key.
Proof.
  revert acc. induction mapping as [| [a c] rest IH]; intros acc Hid; cbn; [reflexivity |].
  assert (Hac : a = c) by (apply (Hid (a, c)); left; reflexivity). subst c.
  unfold apply_overrides_from in *. cbn [fold_left fst snd].
  rewrite IH by (intros e He; apply Hid; right; exact He).
  destruct (String.eqb a key) eqn:E; cbn [orb].
  - apply String.eqb_eq in E. subst a.
    destruct (dict_get args key) as [v |] eqn:Ea; cbn [fst].
    + destruct (existsb _ rest); [reflexivity | apply get_set_same].
    + destruct (existsb _ rest); reflexivity.
  - assert (N : a <> key) by (intro X; subst a; rewrite String.eqb_refl in E; discriminate).
    destruct (dict_get args a) as [v |]; cbn [fst]; rewrite ?(get_set_other _ _ _ _ N); reflexivity.
Qed.

(** X16.  After the override loop, a key that has a command-line option
    holds the command-line value when one was given; a key whose option
    was not given, or that has no option at all, holds what the
    configuration file gave. *)
Theorem command_line_wins args config key :
  let merged := fst (apply_overrides args config) in
  (In key (map snd arg_to_config_mapping) ->
   forall v, dict_get args key = Some v -> dict_get merged key = Some v)
  /\ (dict_get args key = None -> dict_get merged key = dict_get config key)
  /\ (~ In key (map snd arg_to_config_mapping) -> dict_get merged key = dict_get config key).
Proof.
  cbv zeta. unfold apply_overrides.
  assert (Hid : forall e, In e arg_to_config_mapping -> fst e = snd e).
  { intros e He. cbn in He.
    repeat (destruct He as [<- | He]; [reflexivity |]). contradiction. }
  rewrite (overrides_from_get _ _ _ key Hid). cbn [fst].
  assert (Hex : existsb (fun e => String.eqb (snd e) key) arg_to_config_mapping = true
                <-> In key (map snd arg_to_config_mapping)).
  { rewrite existsb_exists, in_map_iff. split.
    - intros [e [He Hk]]. apply String.eqb_eq in Hk. exists e. split; assumption.
    - intros [e [Hk He]]. exists e. split; [exact He | apply String.eqb_eq; exact Hk]. }
  split; [| split].
  - intros Hin v Hv. apply Hex in Hin. rewrite Hin, Hv. reflexivity.
  - intros Hn. rewrite Hn. destruct (existsb _ _); reflexivity.
  - intros Hn. destruct (existsb _ _); [| reflexivity].
    exfalso. apply Hn, Hex. reflexivity.
Qed.

Lemma filter_nil_iff {A} (p : A -> bool) l :
  filter p l = [] <-> forall x, In x l -> p x = false.
Proof.
  induction l as [| a l IH]; cbn.
  - split; [intros _ x [] | reflexivity].
  - destruct (p a) eqn:E.
    + split; [discriminate |]. intro H. rewrite (H a) in E by (left; reflexivity).
      discriminate.
    + rewrite IH. split.
      * intros H x [<- | Hx]; [exact E | apply H, Hx].
      * intros H x Hx. apply H. right. exact Hx.
Qed.

Lemma no_changed_iff config :
  List.length (changed_values config) = O
  <-> forall entry, In entry default_values -> at_default config entry = true.
Proof.
  unfold changed_values. rewrite length_map, length_zero_iff_nil, filter_nil_iff.
  split; intros H e He; specialize (H e He).
  - apply negb_false_iff. exact H.
  - rewrite H. reflexivity.
Qed.

Lemma no_unchanged_iff config :
  List.length (unchanged_values config) = O
  <-> forall entry, In entry default_values -> at_default config entry = false.
Proof.
  unfold unchanged_values. rewrite length_map, length_zero_iff_nil. apply filter_nil_iff.
Qed.

Lemma confirm_consumes responses :
  (List.length (snd (confirm responses)) < List.length responses)%nat
  \/ confirm responses = (EndOfInput, []).
Proof.
  induction responses as [| r rest IH]; cbn [confirm]; [right; reflexivity |].
  destruct (is_in r ["yes"; "y"]%string); [left; cbn; lia |].
  destruct (is_in r ["no"; "n"]%string); [left; cbn; lia |].
  destruct IH as [H | H]; [left; cbn; lia | right; exact H].
Qed.

(** X17.  [validate_configuration] answers [False] without asking exactly
    when every checked parameter still has its shipped default; it answers
    [True] without asking when none has (a missing key counts as changed);
    in between the answer is the console's. *)
Theorem validation_verdict config responses :
  let all_default :=
    forall entry, In entry default_values -> at_default config entry = true in
  let none_default :=
    forall entry, In entry default_values -> at_default config entry = false in
  (all_default <-> validate_configuration config responses = (Refuse, responses))
  /\ (none_default -> validate_configuration config responses = (Proceed, responses))
  /\ (~ all_default -> ~ none_default ->
      validate_configuration config responses = confirm responses).
Proof.
  cbv zeta. unfold validate_configuration.
  pose proof (no_changed_iff config) as Hc. pose proof (no_unchanged_iff config) as Hu.
  destruct (List.length (changed_values config)) as [| c] eqn:Ec; cbn [Nat.eqb].
  - assert (A : forall entry, In entry default_values -> at_default config entry = true)
      by (apply Hc; reflexivity).
    split; [tauto |]. split; [| tauto].
    intro N. pose proof (A _ (or_introl eq_refl)) as A1.
    rewrite (N _ (or_introl eq_refl)) in A1. discriminate.
  - assert (NA : ~ forall entry, In entry default_values -> at_default config entry = true)
      by (intro A; apply Hc in A; discriminate).
    destruct (List.length (unchanged_values config)) as [| u] eqn:Eu; cbn [Nat.ltb Nat.leb].
    + split; [split; [tauto | discriminate] |]. split; [reflexivity |].
      intros _ N. exfalso. apply N, Hu. reflexivity.
    + split; [| split; [| reflexivity]].
      * split; [tauto |]. intro E.
        destruct (confirm_consumes responses) as [L | L].
        -- rewrite E in L. cbn in L. lia.
        -- rewrite L in E. discriminate.
      * intro N. apply Hu in N. discriminate.
Qed.

(** X18.  The confirmation loop skips every response that is neither a
    yes nor a no and decides on the first that is; if there is none it
    ends with the console's end of input. *)
Theorem confirm_skips_unrecognised junk response rest :
  Forall unrecognised junk ->
  (is_in response ["yes"; "y"]%string = true ->
   confirm (junk ++ response :: rest) = (Proceed, rest))
  /\ (is_in response ["yes"; "y"]%string = false ->
      is_in response ["no"; "n"]%string = true ->
      confirm (junk ++ response :: rest) = (Refuse, rest))
  /\ confirm junk = (EndOfInput, []).
Proof.
  induction 1 as [| j junk [Hy Hn] _ IH]; cbn [app confirm].
  - split; [intros ->; reflexivity |]. split; [| reflexivity].
    intros -> ->. reflexivity.
  - rewrite Hy, Hn. exact IH.
Qed.

End MainFacts.

(** * Further worked instances *)

(** X2, instance: a tick at 24510 is within the gap; the broker is not called. *)
Lemma quiet_tick_at_24510 :
  advanced (fst (handle_trade PE ladder_broker demo_cfg 5 24510 at_24500)) = false
  /\ world (snd (handle_trade PE ladder_broker demo_cfg 5 24510 at_24500)) = world at_24500.
Proof.
  assert (A : advanced (fst (handle_trade PE ladder_broker demo_cfg 5 24510 at_24500)) = false)
    by numeric.
  split; [exact A |].
  exact (proj1 (proj2 (broker_untouched_unless_advanced ladder_broker demo_cfg PE 5 24510
                         at_24500 A))).
Defined.

(** X3, instance: the tick at 24530 records one order for 75 of OPT150. *)
Lemma executed_trade_record_at_24530 :
  fst (handle_trade PE ladder_broker demo_cfg 5 24530 at_24500)
  = Executed 1 (mkInstrument "OPT150" 24380)
  /\ order_manager (snd (handle_trade PE ladder_broker demo_cfg 5 24530 at_24500))
     = [mkOrder 7001 "OPT150" "SELL" 75 "2025-08-07T09:15:00"].
Proof.
  assert (E : fst (handle_trade PE ladder_broker demo_cfg 5 24530 at_24500)
              = Executed 1 (mkInstrument "OPT150" 24380)) by numeric.
  split; [exact E |].
  destruct (executed_trade_record ladder_broker demo_cfg PE 5 24530 at_24500 1
              (mkInstrument "OPT150" 24380) E) as [_ [_ [_ H]]].
  apply H. numeric.
Defined.

(** X4, instance: the loop is still running after five rounds; no order, no flag. *)
Lemma no_order_from_cheap_broker :
  (forall k i, fst (handle_trade PE cheap_broker demo_cfg 5 24530 at_24500) <> Executed k i)
  /\ order_manager (snd (handle_trade PE cheap_broker demo_cfg 5 24530 at_24500)) = []
  /\ armed PE (self (snd (handle_trade PE cheap_broker demo_cfg 5 24530 at_24500))) = 0%Z.
Proof.
  assert (N : forall k i,
             fst (handle_trade PE cheap_broker demo_cfg 5 24530 at_24500) <> Executed k i)
    by (intros k i; numeric).
  split; [exact N |].
  exact (no_order_without_execution cheap_broker demo_cfg PE 5 24530 at_24500 N).
Defined.

(** X5, instance: multiplier 2 at 24560, quantity 150 between 75 and 225. *)
Lemma executed_quantity_bounds_at_24560 :
  0 < gap PE demo_cfg
  /\ (0 <= base_quantity PE demo_cfg)%Z
  /\ fst (handle_trade PE ladder_broker demo_cfg 5 24560 at_24500)
     = Executed 2 (mkInstrument "OPT150" 24410)
  /\ (base_quantity PE demo_cfg <= 2 * base_quantity PE demo_cfg)%Z
  /\ inject_Z (2 * base_quantity PE demo_cfg)
     <= sell_multiplier_threshold demo_cfg * inject_Z (base_quantity PE demo_cfg).
Proof.
  assert (P : 0 < gap PE demo_cfg) by numeric.
  assert (B : (0 <= base_quantity PE demo_cfg)%Z) by numeric.
  assert (E : fst (handle_trade PE ladder_broker demo_cfg 5 24560 at_24500)
              = Executed 2 (mkInstrument "OPT150" 24410)) by numeric.
  split; [exact P |]. split; [exact B |]. split; [exact E |].
  exact (proj2 (proj2 (executed_quantity_bounds ladder_broker demo_cfg PE 5 24560 at_24500 2
                         (mkInstrument "OPT150" 24410) P B E))).
Defined.

(** X6, instance: the strike selected from 200 was looked up and quoted. *)
Lemma selected_strike_on_the_ladder :
  fst (strike_search ladder_broker demo_cfg 5 PE 24530 200 at_24500)
  = Found (mkInstrument "OPT150" 24380)
  /\ exists (n : nat) g' w w1 q,
      (n < 5)%nat
      /\ g' == 200 - inject_Z (Z.of_nat n) * nifty_lot_size demo_cfg
      /\ find_instrument ladder_broker (symbol_initials demo_cfg) PE 24530 g' w
         = (Some (mkInstrument "OPT150" 24380), w1)
      /\ get_quote ladder_broker "OPT150" (exchange demo_cfg) w1
         = (Some q, world (snd (strike_search ladder_broker demo_cfg 5 PE 24530 200 at_24500)))
      /\ min_price_to_sell demo_cfg <= q.
Proof.
  assert (E : fst (strike_search ladder_broker demo_cfg 5 PE 24530 200 at_24500)
              = Found (mkInstrument "OPT150" 24380)) by numeric.
  split; [exact E |].
  exact (selected_strike_was_quoted_enough ladder_broker demo_cfg 5 PE 24530 200 at_24500
           (mkInstrument "OPT150" 24380) E).
Defined.


(** X10, instance: the tick at 24530 twice in a row. *)
Lemma no_second_trigger_at_24530 :
  gap PE demo_cfg == inject_Z 25
  /\ (0 < 25)%Z
  /\ advanced (fst (handle_trade PE ladder_broker demo_cfg 5 24530 at_24500)) = true
  /\ fired (fst (handle_trade PE ladder_broker demo_cfg 5 24530
                   (snd (handle_trade PE ladder_broker demo_cfg 5 24530 at_24500)))) = false.
Proof.
  assert (G : gap PE demo_cfg == inject_Z 25) by numeric.
  assert (P : (0 < 25)%Z) by numeric.
  assert (A : advanced (fst (handle_trade PE ladder_broker demo_cfg 5 24530 at_24500)) = true)
    by numeric.
  split; [exact G |]. split; [exact P |]. split; [exact A |].
  exact (no_second_trigger_at_same_price ladder_broker demo_cfg PE 5 5 24530 at_24500 25 G P A).
Defined.

(** X11, instance: at 24560 the PE reference is not lowered. *)
Lemma reference_moves_up_at_24560 :
  0 < gap PE demo_cfg
  /\ 0 <= travel PE (reference PE (self (snd (handle_trade PE ladder_broker demo_cfg 5 24560
                                                at_24500))))
                 (reference PE (self at_24500)).
Proof.
  assert (P : 0 < gap PE demo_cfg) by numeric.
  split; [exact P |].
  exact (proj1 (proj2 (reference_moves_one_way ladder_broker demo_cfg PE 5 24560 at_24500 P))).
Defined.

(** X13, instance: the stand-alone search at an index quote of 24500. *)
Lemma eligible_symbol_on_the_ladder :
  fst (_find_price_eligible_symbol ladder_broker demo_cfg 5 PE at_24500)
  = Found (mkInstrument "OPT150" 24350)
  /\ exists w q,
      get_quote ladder_broker "OPT150" (exchange demo_cfg) w
      = (Some q, world (snd (_find_price_eligible_symbol ladder_broker demo_cfg 5 PE at_24500)))
      /\ min_price_to_sell demo_cfg <= q.
Proof.
  assert (E : fst (_find_price_eligible_symbol ladder_broker demo_cfg 5 PE at_24500)
              = Found (mkInstrument "OPT150" 24350)) by numeric.
  split; [exact E |].
  exact (proj2 (proj2 (proj2 (eligible_symbol_is_read_only ladder_broker demo_cfg 5 PE
                                at_24500))) _ E).
Defined.

(** X14, instance: the ladder broker answers the same whatever was asked before. *)
Lemma eligible_symbol_agrees_on_the_ladder :
  (forall w, fst (_nifty_quote ladder_broker w) = Some 24500)
  /\ fst (_find_price_eligible_symbol ladder_broker demo_cfg 5 PE at_24500)
     = fst (strike_search ladder_broker demo_cfg 5 PE 24500 (symbol_gap PE demo_cfg) at_24500).
Proof.
  assert (N : forall w, fst (_nifty_quote ladder_broker w) = Some 24500)
    by (intro w; reflexivity).
  split; [exact N |].
  apply (eligible_symbol_agrees_with_inline_search ladder_broker demo_cfg 5 PE 24500
           at_24500 at_24500 N); intros; reflexivity.
Defined.

(** X15, instance: both start points 0, index quoted at 24500. *)
Lemma initialize_from_live_quote :
  _initialize_state ladder_broker demo_cfg O = Some (mkMachine (mkStrategy 0 0 24500 24500) 1%nat [] [])
  /\ pe_start_point demo_cfg == 0
  /\ Some (nifty_pe_last_value (self (mkMachine (mkStrategy 0 0 24500 24500) 1%nat [] [])))
     = fst (_nifty_quote ladder_broker O).
Proof.
  assert (E : _initialize_state ladder_broker demo_cfg O
              = Some (mkMachine (mkStrategy 0 0 24500 24500) 1%nat [] [])) by numeric.
  assert (Z : pe_start_point demo_cfg == 0) by numeric.
  split; [exact E |]. split; [exact Z |].
  destruct (proj2 (initialize_state_rule ladder_broker demo_cfg O) _ E) as [_ [_ [H _]]].
  exact (H Z).
Defined.

(** X16, instance: [--pe-gap 25] replaces the file's 20 and leaves [ce_gap] alone. *)
Lemma pe_gap_from_the_command_line :
  In "pe_gap"%string (map snd Main.arg_to_config_mapping)
  /\ Main.dict_get (fst (Main.apply_overrides [("pe_gap"%string, Main.VNum 25)] shipped_config))
                   "pe_gap"
     = Some (Main.VNum 25)
  /\ Main.dict_get (fst (Main.apply_overrides [("pe_gap"%string, Main.VNum 25)] shipped_config))
                   "ce_gap"
     = Main.dict_get shipped_config "ce_gap".
Proof.
  assert (I : In "pe_gap"%string (map snd Main.arg_to_config_mapping))
    by (vm_compute; tauto).
  split; [exact I |].
  destruct (MainFacts.command_line_wins [("pe_gap"%string, Main.VNum 25)] shipped_config
              "pe_gap") as [H _].
  destruct (MainFacts.command_line_wins [("pe_gap"%string, Main.VNum 25)] shipped_config
              "ce_gap") as [_ [K _]].
  split; [exact (H I _ eq_refl) | exact (K eq_refl)].
Defined.

(** X17, instance: the shipped defaults are refused, an empty configuration
    passes, and one edited key leaves the decision to the console. *)
Lemma shipped_config_is_refused :
  (forall entry, In entry Main.default_values -> Main.at_default shipped_config entry = true)
  /\ Main.validate_configuration shipped_config ["y"%string] = (Main.Refuse, ["y"%string])
  /\ Main.validate_configuration [] [] = (Main.Proceed, [])
  /\ Main.validate_configuration edited_config ["y"%string] = Main.confirm ["y"%string].
Proof.
  assert (A : forall entry, In entry Main.default_values ->
                            Main.at_default shipped_config entry = true).
  { intros entry H. cbn in H.
    repeat (destruct H as [<- | H]; [reflexivity |]). contradiction. }
  assert (N : forall entry, In entry Main.default_values -> Main.at_default [] entry = false)
    by (intros entry _; reflexivity).
  split; [exact A |]. split; [| split].
  - exact (proj1 (proj1 (MainFacts.validation_verdict shipped_config ["y"%string])) A).
  - exact (proj1 (proj2 (MainFacts.validation_verdict [] [])) N).
  - apply (proj2 (proj2 (MainFacts.validation_verdict edited_config ["y"%string]))).
    + intro H. specialize (H _ (or_introl eq_refl)). discriminate H.
    + intro H. specialize (H _ (or_intror (or_introl eq_refl))). discriminate H.
Defined.

(** X18, instance: two other answers, then a yes. *)
Lemma confirm_after_two_other_answers :
  Forall Main.unrecognised ["maybe"; ""]%string
  /\ Main.confirm ["maybe"; ""; "y"; "n"]%string = (Main.Proceed, ["n"%string])
  /\ Main.confirm ["maybe"; ""]%string = (Main.EndOfInput, []).
Proof.
  assert (J : Forall Main.unrecognised ["maybe"; ""]%string)
    by (repeat constructor).
  split; [exact J |].
  destruct (MainFacts.confirm_skips_unrecognised ["maybe"; ""]%string "y" ["n"%string] J)
    as [H [_ K]].
  split; [exact (H eq_refl) | exact K].
Defined.

(** * Where doubles and exact arithmetic part *)

Module Float64Facts.
Import Floats.
Local Open Scope float_scope.
Set Warnings "-inexact-float".


(** The double quotient is not the floor of the exact one.  At gap 0.1 a
    distance of 3 gives the multiplier 30 where the exact quotient by the
    double nearest 0.1 has floor 29; at gap 1.1 a distance of 33 gives 29
    where 33 divided by eleven tenths is 30. *)
Lemma double_quotient_is_not_the_floor :
  (exists stored, Float64.pe_prefix 50 0.1 24500 24503 = Float64.Advanced 30 stored)
  /\ Qfloor (3 / Float64.to_Q 0.1) = 29%Z
  /\ (exists stored, Float64.pe_prefix 50 1.1 24500 24533 = Float64.Advanced 29 stored)
  /\ Qfloor (33 / (11 # 10)) = 30%Z.
Proof.
  split; [exists (24500 + 0.1 * 30); vm_compute; reflexivity |].
  split; [vm_compute; reflexivity |].
  split; [exists (24500 + 1.1 * 29); vm_compute; reflexivity |].
  vm_compute; reflexivity.
Qed.

(** On doubles the reset logic can fire twice in a row: at 16345.26 with
    reset gap 50 the relocated reference is the double above 16395.26, and
    its distance to the price is again more than 50. *)
Lemma double_reset_fires_again :
  let relocated := Float64.reset_pe 50 1 16400 16345.26 in
  relocated = 16345.26 + 50
  /\ (50 <? relocated - 16345.26) = true.
Proof. vm_compute. split; reflexivity. Qed.

(** On whole prices the two readings agree: the tick at 24530 and the one
    rejected at 24600. *)
Lemma readings_agree_on_whole_prices :
  (exists stored,
      Float64.pe_prefix 3 25 24500 24530 = Float64.Advanced 1 stored
      /\ (Float64.to_Q stored
          == nifty_pe_last_value
               (self (snd (_handle_pe_trade ladder_broker demo_cfg 5 24530 at_24500))))%Q)
  /\ Float64.pe_prefix 3 25 24500 24600 = Float64.Rejected 4
  /\ fst (_handle_pe_trade ladder_broker demo_cfg 5 24600 at_24500) = Breach 4.
Proof.
  split; [exists 24525; split; vm_compute; reflexivity |].
  split; vm_compute; reflexivity.
Qed.

End Float64Facts.
